(** * gddns: a shallow embedding of main.go and its reconciliation properties

    The program keeps one A record (and a dependent SRV record) of a
    Cloudflare zone in step with the public address of the host.  Everything
    it does is an exchange with its surroundings: the environment, the local
    disk, an address-echo service, the clock and the Cloudflare API.  These
    surroundings are gathered in the class [Runtime]; the Go functions are
    written in a small state monad over a runtime state, the package-level
    variables, the [Config] object that the functions share through a
    pointer, and the list of events emitted so far. *)

From Stdlib Require Import ZArith String Ascii List.
From stdpp Require Import base option list strings pretty gmap.

Local Open Scope string_scope.
Local Open Scope list_scope.

(** ** Go values *)

(** A Go [error] is represented by the text of its [Error()] method; the nil
    error is [None] wherever an [error] is returned on its own. *)
Definition error := string.

(** A call returning [(T, error)] where exactly one side is meaningful. *)
Inductive result (A : Type) : Type :=
| Ok (a : A)
| Err (e : error).
Arguments Ok {A} a.
Arguments Err {A} e.

Definition err_of {A} (r : result A) : option error :=
  match r with Ok _ => None | Err e => Some e end.

(** [strings.Join(elems, sep)] *)
Definition strings_Join (elems : list string) (sep : string) : string :=
  String.concat sep elems.

Definition newline : string := String (ascii_of_nat 10) EmptyString.

(** ** The data of main.go *)

(** [type CfgFile struct], with its json tags. *)
Record CfgFile := mkCfgFile {
  Domain : string;
  CNAME : string;
  ZoneID : string;
  RecordID : string
}.

(** The anonymous struct of the field [Env] of [Config]. *)
Record EnvT := mkEnv {
  CFEmail : string;
  CFApiKey : string;
  SysIP : string
}.

(** [type Config struct { *CfgFile; Env struct{...} }].  The embedded pointer
    is never shared, so the pointee is stored in place; [None] is the nil
    pointer. *)
Record Config := mkConfig {
  cfgFile : option CfgFile;
  Env : EnvT
}.

Definition zeroConfig : Config := mkConfig None (mkEnv "" "" "").

(** ** The part of cloudflare-go and net/http that main.go touches *)

Inductive RouteLevel := AccountRouteLevel | ZoneRouteLevel | UserRouteLevel.

Record ResourceContainer := mkRC {
  Level : RouteLevel;
  Identifier : string
}.

(** [cloudflare.ZoneIdentifier(id)] *)
Definition ZoneIdentifier (id : string) : ResourceContainer :=
  mkRC ZoneRouteLevel id.

(** A value stored under [interface{}] in the SRV data map. *)
Inductive dataValue :=
| VStr (s : string)
| VInt (z : Z).

(** The fields of the parameter structs that main.go sets; all the others keep
    their zero value.  [*string] and [*bool] fields are options. *)
Record UpdateDNSRecordParams := mkUpdate {
  uID : string;
  uType : string;
  uName : string;
  uContent : string;
  uTTL : Z;
  uComment : option string;
  uProxied : option bool
}.

Record CreateDNSRecordParams := mkCreate {
  cType : string;
  cName : string;
  cContent : string;
  cData : option (gmap string dataValue);
  cTTL : Z;
  cProxied : option bool;
  cComment : string
}.

Record ListDNSRecordsParams := mkList {
  lType : string;
  lName : string
}.

Record DNSRecord := mkRecord {
  ID : string;
  rType : string;
  rName : string;
  rContent : string
}.

Record ResultInfo := mkResultInfo {
  Count : Z
}.

(** [*cloudflare.API], as built by [cloudflare.New(key, email)]. *)
Record API := mkAPI {
  APIKey : string;
  APIEmail : string
}.

(** What [io.ReadAll] yields on a response body: the bytes read, and the
    error if reading stopped early. *)
Record Body := mkBody {
  body_data : string;
  body_err : option error
}.

Record Response := mkResponse {
  StatusCode : Z;
  RespBody : Body
}.

Definition io_ReadAll (b : Body) : string * option error :=
  (body_data b, body_err b).

(** ** encoding/json, as far as [saveConfig] uses it *)

#[warnings="-register-all"]
Inductive json :=
| JString (s : string)
| JObject (fields : list (string * json)).

(** The encoding of a [CfgFile] value, field by field in declaration order,
    each under the name of its json tag. *)
Definition json_of_CfgFile (c : CfgFile) : json :=
  JObject [("domain", JString (Domain c));
           ("cname", JString (CNAME c));
           ("zone_id", JString (ZoneID c));
           ("record_id", JString (RecordID c))].

Fixpoint indentation (indent : string) (depth : nat) : string :=
  match depth with
  | O => ""
  | S d => indent +:+ indentation indent d
  end.

Section Marshal.
(** The JSON string literal of a Go string (quotes and escapes). *)
Variable quote : string -> string.
Variables prefix indent : string.

Fixpoint render (depth : nat) (v : json) : string :=
  match v with
  | JString s => quote s
  | JObject [] => "{}"
  | JObject fields =>
      let line := newline +:+ prefix +:+ indentation indent (S depth) in
      "{" +:+ line
      +:+ String.concat ("," +:+ line)
            (map (fun kv => quote (fst kv) +:+ ": " +:+ render (S depth) (snd kv)) fields)
      +:+ newline +:+ prefix +:+ indentation indent depth +:+ "}"
  end.
End Marshal.

(** ** The surroundings of the program *)

(** Every capability that changes or reads the outside world takes the
    runtime state and returns the next one. *)
Class Runtime (W : Type) := {
  godotenv_Load : string -> W -> option error * W;
  os_Open : string -> W -> result string * W;
  os_Getenv : string -> W -> string;
  os_WriteFile : string -> string -> Z -> W -> option error * W;
  time_Now : W -> string * W;
  http_Get : string -> W -> result Response * W;
  (** [json.NewDecoder(file).Decode(&config)]: an error, or the embedded
      [*CfgFile] after decoding (nil when no field of it was present). *)
  json_Decode : string -> result (option CfgFile);
  (** the string encoder of encoding/json *)
  json_quote : string -> string;
  cloudflare_New : string -> string -> result API;
  UpdateDNSRecord :
    API -> ResourceContainer -> UpdateDNSRecordParams -> W -> result DNSRecord * W;
  ListDNSRecords :
    API -> ResourceContainer -> ListDNSRecordsParams -> W ->
    result (list DNSRecord * ResultInfo) * W;
  CreateDNSRecord :
    API -> ResourceContainer -> CreateDNSRecordParams -> W -> result DNSRecord * W
}.

(** ** Events *)

Inductive event :=
| EvStdout (text : string)
| EvHttpGet (url : string) (r : result Response)
| EvUpdate (rc : ResourceContainer) (p : UpdateDNSRecordParams) (r : result DNSRecord)
| EvList (rc : ResourceContainer) (p : ListDNSRecordsParams)
         (r : result (list DNSRecord * ResultInfo))
| EvCreate (rc : ResourceContainer) (p : CreateDNSRecordParams) (r : result DNSRecord)
| EvWriteFile (path data : string) (perm : Z) (r : option error).

(** The provider calls and the state-store writes of a trace, in order. *)
Definition is_update (e : event) : bool :=
  match e with EvUpdate _ _ _ => true | _ => false end.
Definition is_list (e : event) : bool :=
  match e with EvList _ _ _ => true | _ => false end.
Definition is_create (e : event) : bool :=
  match e with EvCreate _ _ _ => true | _ => false end.
Definition is_write (e : event) : bool :=
  match e with EvWriteFile _ _ _ _ => true | _ => false end.

Definition updates (tr : list event) : list event := List.filter is_update tr.
Definition lists (tr : list event) : list event := List.filter is_list tr.
Definition creates (tr : list event) : list event := List.filter is_create tr.
Definition writes (tr : list event) : list event := List.filter is_write tr.

(** Path, text and mode of the files written, without the answers. *)
Definition written (tr : list event) : list (string * string * Z) :=
  omap (fun e => match e with EvWriteFile p d m _ => Some (p, d, m) | _ => None end) tr.

(** A line printed by [fmt.Println]. *)
Definition line (text : string) : event := EvStdout (text +:+ newline).

(** ** Program states and the monad *)

(** A [*Config] is an index into the heap of [Config] objects. *)
Definition ptr := nat.

Record state (W : Type) := mkState {
  world : W;
  setDevMode : string;      (* var setDevMode string *)
  dataPath : string;        (* var dataPath string *)
  heap : list Config;
  out : list event
}.
Arguments mkState {W}.
Arguments world {W}.
Arguments setDevMode {W}.
Arguments dataPath {W}.
Arguments heap {W}.
Arguments out {W}.

(** How a computation ends: with a value, in [log.Fatal] (exit status 1), or
    in a run-time panic. *)
Inductive outcome (A : Type) : Type :=
| Ret (a : A)
| Fatal (msg : string)
| Panic (msg : string).
Arguments Ret {A} a.
Arguments Fatal {A} msg.
Arguments Panic {A} msg.

Definition nil_dereference : string :=
  "runtime error: invalid memory address or nil pointer dereference".

Section Program.
Context {W : Type} {RT : Runtime W}.

Definition M (A : Type) : Type := state W -> outcome A * state W.

Definition ret {A} (a : A) : M A := fun st => (Ret a, st).

Definition bind {A B} (m : M A) (k : A -> M B) : M B :=
  fun st =>
    match m st with
    | (Ret a, st') => k a st'
    | (Fatal msg, st') => (Fatal msg, st')
    | (Panic msg, st') => (Panic msg, st')
    end.

Definition log_Fatal {A} (msg : string) : M A := fun st => (Fatal msg, st).
Definition panic {A} (msg : string) : M A := fun st => (Panic msg, st).

Definition with_world (w : W) (st : state W) : state W :=
  mkState w (setDevMode st) (dataPath st) (heap st) (out st).
Definition with_dataPath (p : string) (st : state W) : state W :=
  mkState (world st) (setDevMode st) p (heap st) (out st).
Definition with_heap (h : list Config) (st : state W) : state W :=
  mkState (world st) (setDevMode st) (dataPath st) h (out st).
Definition emit (e : event) (st : state W) : state W :=
  mkState (world st) (setDevMode st) (dataPath st) (heap st) (out st ++ [e]).

(** A capability call: run it on the world, keep the new world. *)
Definition call {A} (f : W -> A * W) : M A :=
  fun st => let '(a, w) := f (world st) in (Ret a, with_world w st).

Definition log (e : event) : M unit := fun st => (Ret tt, emit e st).

Definition get_setDevMode : M string := fun st => (Ret (setDevMode st), st).
Definition get_dataPath : M string := fun st => (Ret (dataPath st), st).
Definition set_dataPath (p : string) : M unit :=
  fun st => (Ret tt, with_dataPath p st).

Definition alloc (c : Config) : M ptr :=
  fun st => (Ret (length (heap st)), with_heap (heap st ++ [c]) st).

Definition load (p : ptr) : M Config :=
  fun st =>
    match heap st !! p with
    | Some c => (Ret c, st)
    | None => (Panic nil_dereference, st)
    end.

Definition store (p : ptr) (c : Config) : M unit :=
  fun st =>
    match heap st !! p with
    | Some _ => (Ret tt, with_heap (<[p := c]> (heap st)) st)
    | None => (Panic nil_dereference, st)
    end.

(** Access to the fields promoted from the embedded [*CfgFile]. *)
Definition file_of (config : ptr) : M CfgFile :=
  bind (load config) (fun c =>
    match cfgFile c with
    | Some f => ret f
    | None => panic nil_dereference
    end).

Definition env_of (config : ptr) : M EnvT :=
  bind (load config) (fun c => ret (Env c)).

(** The events that [st'] has beyond those of the earlier state [st]. *)
Definition events_since (st st' : state W) : list event :=
  drop (length (out st)) (out st').
End Program.
Arguments M : clear implicits.

Declare Scope go_scope.
Delimit Scope go_scope with go.
Notation "'do' x <- m ;; k" := (bind m (fun x => k))
  (at level 10, x name, m at level 99, k at level 200,
   format "'[v' 'do'  x  <-  m  ;; '/' k ']'") : go_scope.
Notation "'do' ' pat <- m ;; k" := (bind m (fun x => match x with pat => k end))
  (at level 10, pat pattern, m at level 99, k at level 200,
   format "'[v' 'do'  ' pat  <-  m  ;; '/' k ']'") : go_scope.
Notation "'run' m ;; k" := (bind m (fun _ => k))
  (at level 10, m at level 99, k at level 200,
   format "'[v' 'run'  m  ;; '/' k ']'") : go_scope.

Local Open Scope go_scope.

(** ** main.go *)

Section Gddns.
Context {W : Type} {RT : Runtime W}.
Local Abbreviation Go := (M W).

Definition fmt_Println (text : string) : Go unit :=
  log (line text).

Definition fmt_Printf (text : string) : Go unit :=
  log (EvStdout text).

(** [json.MarshalIndent(cfgdata, prefix, indent)] on a [CfgFile]; a struct
    of strings is always encodable. *)
Definition json_MarshalIndent (cfgdata : CfgFile) (prefix indent : string)
  : result string :=
  Ok (render json_quote prefix indent 0 (json_of_CfgFile cfgdata)).

(** The calls that leave the process, each recorded with its answer. *)
Definition net_http_Get (url : string) : Go (result Response) :=
  do r <- call (http_Get url) ;;
  run log (EvHttpGet url r) ;;
  ret r.

Definition api_UpdateDNSRecord (api : API) (rc : ResourceContainer)
           (params : UpdateDNSRecordParams) : Go (result DNSRecord) :=
  do r <- call (UpdateDNSRecord api rc params) ;;
  run log (EvUpdate rc params r) ;;
  ret r.

Definition api_ListDNSRecords (api : API) (rc : ResourceContainer)
           (params : ListDNSRecordsParams) : Go (result (list DNSRecord * ResultInfo)) :=
  do r <- call (ListDNSRecords api rc params) ;;
  run log (EvList rc params r) ;;
  ret r.

Definition api_CreateDNSRecord (api : API) (rc : ResourceContainer)
           (params : CreateDNSRecordParams) : Go (result DNSRecord) :=
  do r <- call (CreateDNSRecord api rc params) ;;
  run log (EvCreate rc params r) ;;
  ret r.

Definition WriteFile (path data : string) (perm : Z) : Go (option error) :=
  do r <- call (os_WriteFile path data perm) ;;
  run log (EvWriteFile path data perm r) ;;
  ret r.

(** func getPublicIP() (string, error) *)
Definition getPublicIP : Go (string * option error) :=
  do r <- net_http_Get "https://api.ipify.org?format=text" ;;
  match r with
  | Err err => ret ("", Some err)
  | Ok resp =>
      let '(ip, err) := io_ReadAll (RespBody resp) in
      ret (ip, err)
  end.

(** func loadConfigAndEnv(filename string): a [*Config] or an error *)
Definition loadConfigAndEnv (filename : string) : Go (result ptr) :=
  do r <- call (os_Open filename) ;;
  match r with
  | Err err => ret (Err err)
  | Ok file =>
      do config <- alloc zeroConfig ;;
      match json_Decode file with
      | Err err => ret (Err err)
      | Ok decoded =>
          do key <- call (fun w => (os_Getenv "CF_API_KEY" w, w)) ;;
          do email <- call (fun w => (os_Getenv "CF_EMAIL" w, w)) ;;
          run store config (mkConfig decoded (mkEnv email key "")) ;;
          if (String.eqb key "" || String.eqb email "")%bool then
            log_Fatal "Cloudflare API credentials are not set in environment variables."
          else
            do '(ip, err) <- getPublicIP ;;
            match err with
            | Some err => log_Fatal ("Error getting public IP: " +:+ err)
            | None =>
                run store config (mkConfig decoded (mkEnv email key ip)) ;;
                ret (Ok config)
            end
      end
  end.

(** func saveConfig(config *Config) error *)
Definition saveConfig (config : ptr) : Go (option error) :=
  do f <- file_of config ;;
  let cfgdata := mkCfgFile (Domain f) (CNAME f) (ZoneID f) (RecordID f) in
  match json_MarshalIndent cfgdata "" "  " with
  | Err err => ret (Some err)
  | Ok data =>
      do dataPath <- get_dataPath ;;
      WriteFile (strings_Join [dataPath; "config.json"] "/") data 384  (* 0600 *)
  end.

(** func updateRecord(api *cloudflare.API, config *Config) error *)
Definition updateRecord (api : API) (config : ptr) : Go (option error) :=
  do f <- file_of config ;;
  do env <- env_of config ;;
  let recordParams :=
    mkUpdate (RecordID f) "A" (CNAME f) (SysIP env) 120
             (Some "Automatically set by gddns") (Some false) in
  do r <- api_UpdateDNSRecord api (ZoneIdentifier (ZoneID f)) recordParams ;;
  match r with
  | Err err => ret (Some err)
  | Ok _ => ret None
  end.

(** func findRecord(api *cloudflare.API, config *Config) error *)
Definition findRecord (api : API) (config : ptr) : Go (option error) :=
  do f <- file_of config ;;
  do res <- api_ListDNSRecords api (ZoneIdentifier (ZoneID f)) (mkList "A" (CNAME f)) ;;
  match res with
  | Err err => ret (Some err)
  | Ok (_, r) =>
      if negb (Z.eqb (Count r) 0) then ret (Some "record already exists")
      else ret None
  end.

(** The [Data] map of the SRV record. *)
Definition srv_data (cnameFull : string) : gmap string dataValue :=
  <["service" := VStr "_minecraft"]>
  (<["proto" := VStr "_tcp"]>
  (<["name" := VStr cnameFull]>
  (<["priority" := VInt 0]>
  (<["weight" := VInt 5]>
  (<["port" := VInt 25565]>
  (<["target" := VStr cnameFull]> ∅)))))).

(** func createRecords(api *cloudflare.API, config *Config) error *)
Definition createRecords (api : API) (config : ptr) : Go (option error) :=
  do f <- file_of config ;;
  do env <- env_of config ;;
  let cnameFull := strings_Join [CNAME f; Domain f] "." in
  do now <- call time_Now ;;
  do res <- api_CreateDNSRecord api (ZoneIdentifier (ZoneID f))
              (mkCreate "A" (CNAME f) (SysIP env) None 300 (Some false)
                        ("Automatically set by gddns at " +:+ now)) ;;
  match res with
  | Err err => ret (Some err)
  | Ok record =>
      do now <- call time_Now ;;
      do res <- api_CreateDNSRecord api (ZoneIdentifier (ZoneID f))
                  (mkCreate "SRV" (CNAME f) "" (Some (srv_data cnameFull)) 900 (Some false)
                            ("Automatically set by gddns at " +:+ now)) ;;
      match res with
      | Err err => ret (Some err)
      | Ok _ =>
          do f <- file_of config ;;
          do env <- env_of config ;;
          run store config
              (mkConfig (Some (mkCfgFile (Domain f) (CNAME f) (ZoneID f) (ID record))) env) ;;
          ret None
      end
  end.

(** func setup() (api *cloudflare.API, config *Config, err error) *)
Definition setup : Go (result (API * ptr)) :=
  do dataPath <- get_dataPath ;;
  do r <- loadConfigAndEnv (strings_Join [dataPath; "config.json"] "/") ;;
  match r with
  | Err err => ret (Err ("error loading configuration: " +:+ err))
  | Ok config =>
      do env <- env_of config ;;
      match cloudflare_New (CFApiKey env) (CFEmail env) with
      | Err err => ret (Err ("error initializing Cloudflare client: " +:+ err))
      | Ok api => ret (Ok (api, config))
      end
  end.

(** func init() *)
Definition init : Go unit :=
  do mode <- get_setDevMode ;;
  run (if String.eqb mode "false" then set_dataPath "/etc/gddns"
       else set_dataPath ".") ;;
  do dataPath <- get_dataPath ;;
  run fmt_Printf ("Using data path: " +:+ dataPath +:+ newline) ;;
  do err <- call (godotenv_Load (strings_Join [dataPath; ".env.example"] "/")) ;;
  match err with
  | Some err => log_Fatal ("Error loading .env.example file: " +:+ err)
  | None => ret tt
  end.

(** func main() *)
Definition main : Go unit :=
  do r <- setup ;;
  match r with
  | Err err => log_Fatal ("Setup failed: " +:+ err)
  | Ok (api, config) =>
      do f <- file_of config ;;
      if negb (String.eqb (RecordID f) "") then
        do err <- updateRecord api config ;;
        match err with
        | Some err => log_Fatal ("Error updating DNS record: " +:+ err)
        | None => fmt_Println "DNS record updated successfully."
        end
      else
        do f <- file_of config ;;
        if String.eqb (RecordID f) "" then
          run fmt_Println "No DNS record ID was set..." ;;
          do err <- findRecord api config ;;
          match err with
          | Some err => log_Fatal ("Error veryifying dns state: " +:+ err)
          | None =>
              run fmt_Println "new DNS record supplied, assuming new DNS record..." ;;
              do err <- createRecords api config ;;
              match err with
              | Some err => log_Fatal ("Error creating records: " +:+ err)
              | None =>
                  run fmt_Println "DNS record created successfully..." ;;
                  do err <- saveConfig config ;;
                  match err with
                  | Some err => log_Fatal ("Error saving config: " +:+ err)
                  | None => fmt_Println "DNS record saved successfully."
                  end
              end
          end
        else ret tt
  end.

(** The whole process: package initialisation, then [main]. *)
Definition program : Go unit :=
  run init ;; main.
End Gddns.

(** ** Records held by a provider *)

Definition selects (rc : ResourceContainer) (p : ListDNSRecordsParams)
           (zr : string * DNSRecord) : bool :=
  (String.eqb (fst zr) (Identifier rc)
   && String.eqb (rType (snd zr)) (lType p)
   && String.eqb (rName (snd zr)) (lName p))%bool.

(** Modelled from the spec: the provider behind [findByName(zoneID,
    recordType, name) -> {matchCount, records}] of the Provider Gateway, which
    is not part of the repository.  Of the records it holds, each paired with
    the identifier of its zone, it answers with those of the zone that have
    the requested type and name, and with their number. *)
Definition find_by_name (store : list (string * DNSRecord)) (rc : ResourceContainer)
           (p : ListDNSRecordsParams) : list DNSRecord * ResultInfo :=
  let found := map snd (List.filter (selects rc p) store) in
  (found, mkResultInfo (Z.of_nat (length found))).

(** ** A reference runtime

    An in-memory host and DNS provider on which the program can be run:
    an environment, a file system, an address-echo service with a fixed
    answer, a clock handing out prepared time stamps, and zones holding
    records.  The provider can be told to refuse record types and the disk to
    refuse writes, so that every failure path of the program is reachable. *)

Module Sim.

Record machine := mkMachine {
  env : list (string * string);
  files : list (string * string);
  read_only : bool;
  echo : result Response;
  clock : list string;
  records : list (string * DNSRecord);     (* zone identifier, record *)
  refused : list string;                   (* record types the provider rejects *)
  next_id : nat
}.

Fixpoint assoc (k : string) (l : list (string * string)) : option string :=
  match l with
  | [] => None
  | (k', v) :: l' => if String.eqb k k' then Some v else assoc k l'
  end.

Definition set_files (fs : list (string * string)) (w : machine) : machine :=
  mkMachine (env w) fs (read_only w) (echo w) (clock w) (records w) (refused w) (next_id w).
Definition set_clock (c : list string) (w : machine) : machine :=
  mkMachine (env w) (files w) (read_only w) (echo w) c (records w) (refused w) (next_id w).
Definition set_records (rs : list (string * DNSRecord)) (n : nat) (w : machine) : machine :=
  mkMachine (env w) (files w) (read_only w) (echo w) (clock w) rs (refused w) n.

(** *** The disk, the environment, the clock *)

Definition load_env (path : string) (w : machine) : option error * machine :=
  match assoc path (files w) with
  | Some _ => (None, w)
  | None => (Some ("open " +:+ path +:+ ": no such file or directory"), w)
  end.

Definition open (path : string) (w : machine) : result string * machine :=
  match assoc path (files w) with
  | Some data => (Ok data, w)
  | None => (Err ("open " +:+ path +:+ ": no such file or directory"), w)
  end.

Definition getenv (key : string) (w : machine) : string :=
  default "" (assoc key (env w)).

Definition write_file (path data : string) (perm : Z) (w : machine) : option error * machine :=
  if read_only w then
    (Some ("open " +:+ path +:+ ": read-only file system"), w)
  else
    (None, set_files ((path, data) :: files w) w).

Definition now (w : machine) : string * machine :=
  match clock w with
  | [] => ("", w)
  | t :: ts => (t, set_clock ts w)
  end.

Definition get (url : string) (w : machine) : result Response * machine :=
  (echo w, w).

(** *** JSON text of flat objects of strings *)

Definition dquote : ascii := ascii_of_nat 34.
Definition backslash : ascii := ascii_of_nat 92.

Fixpoint escape (s : string) : string :=
  match s with
  | EmptyString => EmptyString
  | String c s' =>
      if (Ascii.eqb c dquote || Ascii.eqb c backslash)%bool
      then String backslash (String c (escape s'))
      else String c (escape s')
  end.

Definition quote (s : string) : string :=
  String dquote (escape s) +:+ String dquote EmptyString.

Definition is_space (c : ascii) : bool :=
  (Ascii.eqb c " " || Ascii.eqb c (ascii_of_nat 10)
   || Ascii.eqb c (ascii_of_nat 13) || Ascii.eqb c (ascii_of_nat 9))%bool.

Inductive pstate :=
| PStart                                   (* before the opening brace *)
| PField                                   (* before a key, or the closing brace *)
| PKey (k : string) (esc : bool)           (* inside a key *)
| PColon (k : string)                      (* after a key *)
| PValue (k : string)                      (* before a value *)
| PText (k v : string) (esc : bool)        (* inside a value *)
| PNext                                    (* after a value *)
| PDone
| PError.

Definition snoc (s : string) (c : ascii) : string := s +:+ String c EmptyString.

Definition pstep (st : pstate) (c : ascii) (acc : list (string * string))
  : pstate * list (string * string) :=
  match st with
  | PStart =>
      if is_space c then (PStart, acc)
      else if Ascii.eqb c "{" then (PField, acc) else (PError, acc)
  | PField =>
      if is_space c then (PField, acc)
      else if Ascii.eqb c dquote then (PKey "" false, acc)
      else if Ascii.eqb c "}" then (PDone, acc) else (PError, acc)
  | PKey k true => (PKey (snoc k c) false, acc)
  | PKey k false =>
      if Ascii.eqb c backslash then (PKey k true, acc)
      else if Ascii.eqb c dquote then (PColon k, acc)
      else (PKey (snoc k c) false, acc)
  | PColon k =>
      if is_space c then (PColon k, acc)
      else if Ascii.eqb c ":" then (PValue k, acc) else (PError, acc)
  | PValue k =>
      if is_space c then (PValue k, acc)
      else if Ascii.eqb c dquote then (PText k "" false, acc) else (PError, acc)
  | PText k v true => (PText k (snoc v c) false, acc)
  | PText k v false =>
      if Ascii.eqb c backslash then (PText k v true, acc)
      else if Ascii.eqb c dquote then (PNext, (k, v) :: acc)
      else (PText k (snoc v c) false, acc)
  | PNext =>
      if is_space c then (PNext, acc)
      else if Ascii.eqb c "," then (PField, acc)
      else if Ascii.eqb c "}" then (PDone, acc) else (PError, acc)
  | PDone => (PDone, acc)
  | PError => (PError, acc)
  end.

Fixpoint pscan (st : pstate) (s : string) (acc : list (string * string))
  : pstate * list (string * string) :=
  match s with
  | EmptyString => (st, acc)
  | String c s' => let '(st', acc') := pstep st c acc in pscan st' s' acc'
  end.

(** Decoding into a [Config]: the fields of the embedded [CfgFile] are
    looked up by their tags; when none is present the pointer stays nil. *)
Definition decode (text : string) : result (option CfgFile) :=
  match pscan PStart text [] with
  | (PDone, fields) =>
      let get k := assoc k fields in
      match get "domain", get "cname", get "zone_id", get "record_id" with
      | None, None, None, None => Ok None
      | d, c, z, r => Ok (Some (mkCfgFile (default "" d) (default "" c)
                                          (default "" z) (default "" r)))
      end
  | _ => Err "invalid JSON configuration"
  end.

(** *** The provider *)

Definition new_api (key email : string) : result API :=
  if (String.eqb key "" || String.eqb email "")%bool
  then Err "invalid credentials: key & email must not be empty"
  else Ok (mkAPI key email).

Definition list_records (api : API) (rc : ResourceContainer) (p : ListDNSRecordsParams)
           (w : machine) : result (list DNSRecord * ResultInfo) * machine :=
  (Ok (find_by_name (records w) rc p), w).

Definition create_record (api : API) (rc : ResourceContainer) (p : CreateDNSRecordParams)
           (w : machine) : result DNSRecord * machine :=
  if existsb (String.eqb (cType p)) (refused w) then
    (Err ("record type " +:+ cType p +:+ " refused"), w)
  else
    let record := mkRecord ("rec" +:+ pretty (next_id w)) (cType p) (cName p) (cContent p) in
    (Ok record, set_records (records w ++ [(Identifier rc, record)]) (S (next_id w)) w).

Definition update_record (api : API) (rc : ResourceContainer) (p : UpdateDNSRecordParams)
           (w : machine) : result DNSRecord * machine :=
  let hit (zr : string * DNSRecord) :=
    (String.eqb (fst zr) (Identifier rc) && String.eqb (ID (snd zr)) (uID p))%bool in
  if existsb hit (records w) then
    let record := mkRecord (uID p) (uType p) (uName p) (uContent p) in
    (Ok record,
     set_records (map (fun zr => if hit zr then (fst zr, record) else zr) (records w))
                 (next_id w) w)
  else (Err "record not found", w).

#[export] Instance runtime : Runtime machine := {
  godotenv_Load := load_env;
  os_Open := open;
  os_Getenv := getenv;
  os_WriteFile := write_file;
  time_Now := now;
  http_Get := get;
  json_Decode := decode;
  json_quote := quote;
  cloudflare_New := new_api;
  UpdateDNSRecord := update_record;
  ListDNSRecords := list_records;
  CreateDNSRecord := create_record
}.

(** A host with credentials, a configuration file of the given text, the
    answer [ip] of the echo service, and a provider holding [recs]. *)
Definition host_with (text : string) (ip : Response) (recs : list (string * DNSRecord))
           (refuse : list string) (ro : bool) : machine :=
  mkMachine [("CF_API_KEY", "key"); ("CF_EMAIL", "ops@example.com")]
          [("./config.json", text); ("./.env.example", "")]
          ro (Ok ip) ["t1"; "t2"] recs refuse 0.

(** The same, with the configuration [f] on disk as [saveConfig] writes it. *)
Definition host (f : CfgFile) (ip : Response) (recs : list (string * DNSRecord))
           (refuse : list string) (ro : bool) : machine :=
  host_with (render quote "" "  " 0 (json_of_CfgFile f)) ip recs refuse ro.

Definition boot (w : machine) : state machine := mkState w "" "" [] [].

(** The state in which [main] starts: after [init]. *)
Definition started (w : machine) : state machine := (init (boot w)).2.

(** The state in which [setup] leaves the program. *)
Definition ready (w : machine) : state machine := (setup (started w)).2.

Definition plain (ip : string) : Response := mkResponse 200 (mkBody ip None).

Definition unmanaged : CfgFile := mkCfgFile "example.com" "home" "z1" "".
Definition managed : CfgFile := mkCfgFile "example.com" "home" "z1" "rec123".
Definition creds (ip : string) : EnvT := mkEnv "ops@example.com" "key" ip.
Definition api : API := mkAPI "key" "ops@example.com".

(** First run against an empty zone. *)
Definition fresh : machine := host unmanaged (plain "203.0.113.7") [] [] false.

(** Later run: the record made earlier is known and held by the provider. *)
Definition settled : machine :=
  host managed (plain "198.51.100.2")
       [("z1", mkRecord "rec123" "A" "home" "203.0.113.7")] [] false.

(** First run, but somebody else already has an A record of that name. *)
Definition taken : machine :=
  host unmanaged (plain "203.0.113.7")
       [("z1", mkRecord "other" "A" "home" "192.0.2.1")] [] false.


(** First run against a provider that refuses SRV records. *)
Definition no_srv : machine := host unmanaged (plain "203.0.113.7") [] ["SRV"] false.

(** First run on a disk that cannot be written. *)
Definition locked : machine := host unmanaged (plain "203.0.113.7") [] [] true.

(** A configuration file that is an empty object. *)
Definition blank : machine := host_with "{}" (plain "203.0.113.7") [] [] false.

(** The echo service answers with an error page. *)
Definition unavailable : Response :=
  mkResponse 503 (mkBody "upstream connect error" None).
End Sim.

(** ** The shape of a run of [main] after [setup]

    What [main] emits and how it ends once [setup] has handed over the api
    and the configuration, told separately for a configuration that carries a
    record id and for one that does not. *)

Section Shapes.
Context {W : Type} {RT : Runtime W}.
Variables (f : CfgFile) (env : EnvT) (dataPath : string).

Let rc := ZoneIdentifier (ZoneID f).

Inductive managed_run : list event -> outcome unit -> Prop :=
| update_failed p e :
    p = mkUpdate (RecordID f) "A" (CNAME f) (SysIP env) 120
                 (Some "Automatically set by gddns") (Some false) ->
    managed_run [EvUpdate rc p (Err e)]
                (Fatal ("Error updating DNS record: " +:+ e))
| update_done p r :
    p = mkUpdate (RecordID f) "A" (CNAME f) (SysIP env) 120
                 (Some "Automatically set by gddns") (Some false) ->
    managed_run [EvUpdate rc p (Ok r); line "DNS record updated successfully."]
                (Ret tt).

(** The A record and the SRV record asked for at the times [now]. *)
Definition a_record (now : string) : CreateDNSRecordParams :=
  mkCreate "A" (CNAME f) (SysIP env) None 300 (Some false)
           ("Automatically set by gddns at " +:+ now).

Definition srv_record (now : string) : CreateDNSRecordParams :=
  mkCreate "SRV" (CNAME f) ""
           (Some (srv_data (strings_Join [CNAME f; Domain f] ".")))
           900 (Some false)
           ("Automatically set by gddns at " +:+ now).

Definition config_path : string := strings_Join [dataPath; "config.json"] "/".

Definition config_text (id : string) : string :=
  render json_quote "" "  " 0
         (json_of_CfgFile (mkCfgFile (Domain f) (CNAME f) (ZoneID f) id)).

(** The third index is the record id stored into the shared [Config]
    during the run, if any. *)
Inductive unmanaged_run : list event -> outcome unit -> option string -> Prop :=
| listing_failed e :
    unmanaged_run
      [line "No DNS record ID was set...";
       EvList rc (mkList "A" (CNAME f)) (Err e)]
      (Fatal ("Error veryifying dns state: " +:+ e)) None
| conflict recs ri :
    Count ri <> 0%Z ->
    unmanaged_run
      [line "No DNS record ID was set...";
       EvList rc (mkList "A" (CNAME f)) (Ok (recs, ri))]
      (Fatal "Error veryifying dns state: record already exists") None
| a_failed recs ri now e :
    Count ri = 0%Z ->
    unmanaged_run
      [line "No DNS record ID was set...";
       EvList rc (mkList "A" (CNAME f)) (Ok (recs, ri));
       line "new DNS record supplied, assuming new DNS record...";
       EvCreate rc (a_record now) (Err e)]
      (Fatal ("Error creating records: " +:+ e)) None
| srv_failed recs ri now record now' e :
    Count ri = 0%Z ->
    unmanaged_run
      [line "No DNS record ID was set...";
       EvList rc (mkList "A" (CNAME f)) (Ok (recs, ri));
       line "new DNS record supplied, assuming new DNS record...";
       EvCreate rc (a_record now) (Ok record);
       EvCreate rc (srv_record now') (Err e)]
      (Fatal ("Error creating records: " +:+ e)) None
| save_failed recs ri now record now' srv e :
    Count ri = 0%Z ->
    unmanaged_run
      [line "No DNS record ID was set...";
       EvList rc (mkList "A" (CNAME f)) (Ok (recs, ri));
       line "new DNS record supplied, assuming new DNS record...";
       EvCreate rc (a_record now) (Ok record);
       EvCreate rc (srv_record now') (Ok srv);
       line "DNS record created successfully...";
       EvWriteFile config_path (config_text (ID record)) 384 (Some e)]
      (Fatal ("Error saving config: " +:+ e)) (Some (ID record))
| saved recs ri now record now' srv :
    Count ri = 0%Z ->
    unmanaged_run
      [line "No DNS record ID was set...";
       EvList rc (mkList "A" (CNAME f)) (Ok (recs, ri));
       line "new DNS record supplied, assuming new DNS record...";
       EvCreate rc (a_record now) (Ok record);
       EvCreate rc (srv_record now') (Ok srv);
       line "DNS record created successfully...";
       EvWriteFile config_path (config_text (ID record)) 384 None;
       line "DNS record saved successfully."]
      (Ret tt) (Some (ID record)).

(** The [Config] object after a run that stored [id] (or nothing). *)
Definition config_after (id : option string) : Config :=
  match id with
  | None => mkConfig (Some f) env
  | Some id => mkConfig (Some (mkCfgFile (Domain f) (CNAME f) (ZoneID f) id)) env
  end.
End Shapes.

(** The address-echo service asked by [getPublicIP]. *)
Definition echo_url : string := "https://api.ipify.org?format=text".

(** ** Hosts on which something is missing or broken *)

Module Cases.
Import Sim.

Definition credentials : list (string * string) :=
  [("CF_API_KEY", "key"); ("CF_EMAIL", "ops@example.com")].

Definition on_disk (f : CfgFile) : string := render quote "" "  " 0 (json_of_CfgFile f).

(** No configuration file. *)
Definition no_file : machine :=
  mkMachine credentials [("./.env.example", "")] false (Ok (plain "203.0.113.7"))
            ["t1"; "t2"] [] [] 0.

(** A configuration file that is not JSON. *)
Definition garbled : machine :=
  host_with "domain=example.com" (plain "203.0.113.7") [] [] false.

(** The api key is not in the environment. *)
Definition no_key : machine :=
  mkMachine [("CF_EMAIL", "ops@example.com")]
            [("./config.json", on_disk unmanaged); ("./.env.example", "")]
            false (Ok (plain "203.0.113.7")) ["t1"; "t2"] [] [] 0.

(** The echo service cannot be reached. *)
Definition echo_down : machine :=
  mkMachine credentials
            [("./config.json", on_disk managed); ("./.env.example", "")]
            false (Err "dial tcp: no route to host") ["t1"; "t2"]
            [("z1", mkRecord "rec123" "A" "home" "203.0.113.7")] [] 0.

(** The answer of the echo service breaks off. *)
Definition cut_off : machine :=
  host managed (mkResponse 200 (mkBody "198.51" (Some "unexpected EOF")))
       [("z1", mkRecord "rec123" "A" "home" "203.0.113.7")] [] false.

(** The echo service answers 503 with an error page, on a later run. *)
Definition error_page : machine :=
  host managed unavailable [("z1", mkRecord "rec123" "A" "home" "203.0.113.7")] [] false.

(** A later run, but the record is gone from the provider. *)
Definition orphaned : machine := host managed (plain "198.51.100.2") [] [] false.

(** A first run against a provider that refuses A records. *)
Definition no_a : machine := host unmanaged (plain "203.0.113.7") [] ["A"] false.

(** Neither a configuration file nor credentials. *)
Definition bare : machine :=
  mkMachine [] [("./.env.example", "")] false (Ok (plain "203.0.113.7"))
            ["t1"; "t2"] [] [] 0.

End Cases.

(** ** The reference host with a provider that cannot be reached *)

Module Outage.

Definition refusal : error := "connection refused".

Definition runtime : Runtime Sim.machine := {|
  godotenv_Load := Sim.load_env;
  os_Open := Sim.open;
  os_Getenv := Sim.getenv;
  os_WriteFile := Sim.write_file;
  time_Now := Sim.now;
  http_Get := Sim.get;
  json_Decode := Sim.decode;
  json_quote := Sim.quote;
  cloudflare_New := Sim.new_api;
  UpdateDNSRecord := fun _ _ _ w => (Err refusal, w);
  ListDNSRecords := fun _ _ _ w => (Err refusal, w);
  CreateDNSRecord := fun _ _ _ w => (Err refusal, w)
|}.

Definition started (w : Sim.machine) : state Sim.machine :=
  (init (RT := runtime) (Sim.boot w)).2.

Definition ready (w : Sim.machine) : state Sim.machine :=
  (setup (RT := runtime) (started w)).2.
End Outage.

(** ** How each function runs *)

Section Runs.
Context {W : Type} {RT : Runtime W}.
Implicit Types (st : state W) (config : ptr) (f : CfgFile) (env : EnvT).

Lemma file_of_run st config f env :
  heap st !! config = Some (mkConfig (Some f) env) ->
  file_of config st = (Ret f, st).
Proof. intros H. unfold file_of, bind, load. rewrite H. reflexivity. Qed.

Lemma file_of_nil st config env :
  heap st !! config = Some (mkConfig None env) ->
  file_of config st = (Panic nil_dereference, st).
Proof. intros H. unfold file_of, bind, load. rewrite H. reflexivity. Qed.

Lemma env_of_run st config c :
  heap st !! config = Some c ->
  env_of config st = (Ret (Env c), st).
Proof. intros H. unfold env_of, bind, load. rewrite H. reflexivity. Qed.

(** The update path: one call, its error handed back. *)
Lemma updateRecord_run api st config f env :
  heap st !! config = Some (mkConfig (Some f) env) ->
  let rc := ZoneIdentifier (ZoneID f) in
  let p := mkUpdate (RecordID f) "A" (CNAME f) (SysIP env) 120
                    (Some "Automatically set by gddns") (Some false) in
  let a := UpdateDNSRecord api rc p (world st) in
  updateRecord api config st =
    (Ret (err_of a.1), emit (EvUpdate rc p a.1) (with_world a.2 st)).
Proof.
  intros H rc p a. unfold updateRecord.
  unfold bind at 1. rewrite (file_of_run _ _ _ _ H).
  unfold bind at 1. rewrite (env_of_run _ _ _ H). cbn [Env].
  unfold api_UpdateDNSRecord, bind, call, log, ret.
  fold rc p. subst a. destruct (UpdateDNSRecord api rc p (world st)) as [[r|e] w];
    reflexivity.
Qed.

(** The conflict check: one listing, judged by its count alone. *)
Lemma findRecord_run api st config f env :
  heap st !! config = Some (mkConfig (Some f) env) ->
  let rc := ZoneIdentifier (ZoneID f) in
  let p := mkList "A" (CNAME f) in
  let a := ListDNSRecords api rc p (world st) in
  findRecord api config st =
    (Ret match a.1 with
         | Err err => Some err
         | Ok (_, r) => if negb (Z.eqb (Count r) 0) then Some "record already exists"
                        else None
         end,
     emit (EvList rc p a.1) (with_world a.2 st)).
Proof.
  intros H rc p a. unfold findRecord.
  unfold bind at 1. rewrite (file_of_run _ _ _ _ H).
  unfold api_ListDNSRecords, bind, call, log, ret.
  fold rc p. subst a. destruct (ListDNSRecords api rc p (world st)) as [[[recs r]|e] w];
    cbn; [destruct (negb _)|]; reflexivity.
Qed.

(** The state-store write. *)
Lemma saveConfig_run st config f env :
  heap st !! config = Some (mkConfig (Some f) env) ->
  let path := strings_Join [dataPath st; "config.json"] "/" in
  let data := render json_quote "" "  " 0 (json_of_CfgFile f) in
  let a := os_WriteFile path data 384 (world st) in
  saveConfig config st =
    (Ret a.1, emit (EvWriteFile path data 384 a.1) (with_world a.2 st)).
Proof.
  intros H path data a. unfold saveConfig.
  unfold bind at 1. rewrite (file_of_run _ _ _ _ H).
  cbn [json_MarshalIndent]. unfold json_MarshalIndent.
  unfold WriteFile, bind, call, log, ret, get_dataPath.
  destruct f as [d c z r]. cbn [Domain CNAME ZoneID RecordID].
  fold path. fold data. subst a.
  destruct (os_WriteFile path data 384 (world st)) as [r' w]. reflexivity.
Qed.

(** The create path: the A record, then the SRV record, then the id of
    the A record is stored in the shared [Config]. *)
Lemma createRecords_run api st config f env :
  heap st !! config = Some (mkConfig (Some f) env) ->
  let rc := ZoneIdentifier (ZoneID f) in
  let cnameFull := strings_Join [CNAME f; Domain f] "." in
  let t1 := time_Now (world st) in
  let pA := mkCreate "A" (CNAME f) (SysIP env) None 300 (Some false)
                     ("Automatically set by gddns at " +:+ t1.1) in
  let a := CreateDNSRecord api rc pA t1.2 in
  let stA := emit (EvCreate rc pA a.1) (with_world a.2 st) in
  createRecords api config st =
    match a.1 with
    | Err err => (Ret (Some err), stA)
    | Ok record =>
        let t2 := time_Now a.2 in
        let pS := mkCreate "SRV" (CNAME f) "" (Some (srv_data cnameFull)) 900 (Some false)
                           ("Automatically set by gddns at " +:+ t2.1) in
        let b := CreateDNSRecord api rc pS t2.2 in
        let stS := emit (EvCreate rc pS b.1) (with_world b.2 stA) in
        match b.1 with
        | Err err => (Ret (Some err), stS)
        | Ok _ =>
            (Ret None,
             with_heap (<[config := mkConfig
                            (Some (mkCfgFile (Domain f) (CNAME f) (ZoneID f) (ID record)))
                            env]> (heap st)) stS)
        end
    end.
Proof.
  intros H rc cnameFull t1 pA a stA. unfold createRecords.
  unfold bind at 1. rewrite (file_of_run _ _ _ _ H).
  unfold bind at 1. rewrite (env_of_run _ _ _ H). cbn [Env].
  fold rc cnameFull.
  unfold bind at 1. unfold call at 1. fold t1.
  destruct t1 as [now1 w1] eqn:E1. cbn [fst snd] in *.
  unfold bind at 1. unfold api_CreateDNSRecord at 1.
  unfold bind at 1. unfold call at 1. cbn [world with_world].
  fold pA. fold a. destruct a as [ra wa] eqn:Ea. cbn [fst snd] in *.
  unfold bind at 1. unfold log at 1. unfold ret at 1.
  destruct ra as [record|err]; [|reflexivity].
  unfold bind at 1. unfold call at 1. cbn [world with_world emit].
  destruct (time_Now wa) as [now2 w2] eqn:E2. cbn [fst snd].
  unfold bind at 1. unfold api_CreateDNSRecord at 1.
  unfold bind at 1. unfold call at 1. cbn [world with_world].
  destruct (CreateDNSRecord api rc _ w2) as [rb wb] eqn:Eb. cbn [fst snd].
  unfold bind at 1. unfold log at 1. unfold ret at 1.
  destruct rb as [recordS|err]; [|reflexivity].
  unfold bind at 1.
  rewrite (file_of_run _ _ f env) by exact H.
  unfold bind at 1.
  rewrite (env_of_run _ _ (mkConfig (Some f) env)) by exact H.
  unfold bind, store, ret. cbn [heap with_world emit Env].
  rewrite H. reflexivity.
Qed.
End Runs.

(** ** [main] follows these shapes *)

Section MainRuns.
Context {W : Type} {RT : Runtime W}.
Implicit Types (st : state W) (config : ptr) (f : CfgFile) (env : EnvT).

Lemma events_since_app st st' evs :
  out st' = out st ++ evs -> events_since st st' = evs.
Proof. intros H. unfold events_since. rewrite H. apply drop_app_length. Qed.

Lemma main_managed st st1 api config f env :
  setup st = (Ret (Ok (api, config)), st1) ->
  heap st1 !! config = Some (mkConfig (Some f) env) ->
  RecordID f <> "" ->
  exists evs,
    managed_run f env evs (main st).1
    /\ out (main st).2 = out st1 ++ evs
    /\ heap (main st).2 = heap st1.
Proof.
  intros Hsetup Hheap Hid.
  destruct (main st) as [res st2] eqn:E. cbn [fst snd].
  unfold main in E. unfold bind at 1 in E. rewrite Hsetup in E.
  unfold bind at 1 in E. rewrite (file_of_run _ _ _ _ Hheap) in E.
  apply String.eqb_neq in Hid. rewrite Hid in E. cbn [negb] in E.
  unfold bind at 1 in E. rewrite (updateRecord_run _ _ _ _ _ Hheap) in E.
  destruct (UpdateDNSRecord _ _ _ _) as [[r|e] w]; cbn in E;
    injection E as <- <-; eexists.
  - split; [apply update_done; reflexivity|].
    cbn. rewrite <- app_assoc. split; reflexivity.
  - split; [apply update_failed; reflexivity|].
    cbn. split; reflexivity.
Qed.

Lemma main_unmanaged st st1 api config f env :
  setup st = (Ret (Ok (api, config)), st1) ->
  heap st1 !! config = Some (mkConfig (Some f) env) ->
  RecordID f = "" ->
  exists evs id,
    unmanaged_run f env (dataPath st1) evs (main st).1 id
    /\ out (main st).2 = out st1 ++ evs
    /\ heap (main st).2 = <[config := config_after f env id]> (heap st1)
    /\ lists evs =
         [EvList (ZoneIdentifier (ZoneID f)) (mkList "A" (CNAME f))
                 (ListDNSRecords api (ZoneIdentifier (ZoneID f)) (mkList "A" (CNAME f))
                                 (world st1)).1].
Proof.
  intros Hsetup Hheap Hid.
  assert (Hsame : <[config := mkConfig (Some f) env]> (heap st1) = heap st1)
    by (apply list_insert_id; exact Hheap).
  assert (Hlt : config < length (heap st1)) by (eapply lookup_lt_Some; exact Hheap).
  destruct (main st) as [res st2] eqn:E. cbn [fst snd].
  unfold main in E. unfold bind at 1 in E. rewrite Hsetup in E.
  unfold bind at 1 in E. rewrite (file_of_run _ _ _ _ Hheap) in E.
  rewrite Hid in E. cbn [String.eqb negb] in E.
  unfold bind at 1 in E. rewrite (file_of_run _ _ _ _ Hheap) in E.
  rewrite Hid in E. cbn [String.eqb] in E.
  unfold bind at 1 in E. unfold fmt_Println at 1, log at 1 in E.
  unfold bind at 1 in E.
  match type of E with context [findRecord api config ?s] =>
    rewrite (findRecord_run api s config f env Hheap) in E end.
  cbn [world emit] in E.
  destruct (ListDNSRecords _ _ _ _) as [[[recs ri]|e] w]; cbn [fst snd] in E.
  2:{ cbn in E. injection E as <- <-.
      exists [line "No DNS record ID was set...";
              EvList (ZoneIdentifier (ZoneID f)) (mkList "A" (CNAME f)) (Err e)], None.
      split; [apply listing_failed|]. cbn. rewrite <- app_assoc.
      rewrite Hsame. repeat split; reflexivity. }
  destruct (Z.eqb_spec (Count ri) 0) as [Hc|Hc]; cbn [negb] in E.
  2:{ cbn in E. injection E as <- <-.
      exists [line "No DNS record ID was set...";
              EvList (ZoneIdentifier (ZoneID f)) (mkList "A" (CNAME f)) (Ok (recs, ri))],
             None.
      split; [apply conflict; exact Hc|]. cbn. rewrite <- app_assoc.
      rewrite Hsame. repeat split; reflexivity. }
  unfold bind at 1 in E. unfold fmt_Println at 1, log at 1 in E.
  unfold bind at 1 in E.
  match type of E with context [createRecords api config ?s] =>
    rewrite (createRecords_run api s config f env Hheap) in E end.
  cbv zeta in E. cbn [world emit with_world] in E.
  destruct (time_Now w) as [now w1]; cbn [fst snd] in E.
  destruct (CreateDNSRecord api _ _ w1) as [[record|e] w2]; cbn [fst snd] in E.
  2:{ cbn in E. injection E as <- <-.
      eexists _, None. split; [apply (a_failed f env (dataPath st1) recs ri now e Hc)|].
      cbn. rewrite <- !app_assoc. rewrite Hsame. repeat split; reflexivity. }
  destruct (time_Now w2) as [now' w3]; cbn [fst snd] in E.
  destruct (CreateDNSRecord api _ _ w3) as [[srv|e] w4]; cbn [fst snd] in E.
  2:{ cbn in E. injection E as <- <-.
      eexists _, None. split; [apply (srv_failed f env (dataPath st1) recs ri now record now' e Hc)|].
      cbn. rewrite <- !app_assoc. rewrite Hsame. repeat split; reflexivity. }
  unfold bind at 1 in E. unfold fmt_Println at 1, log at 1 in E.
  unfold bind at 1 in E.
  match type of E with context [saveConfig config ?s] =>
    rewrite (saveConfig_run s config
               (mkCfgFile (Domain f) (CNAME f) (ZoneID f) (ID record)) env) in E
      by (cbn; apply list_lookup_insert_eq; exact Hlt) end.
  cbv zeta in E. cbn [world emit with_world with_heap dataPath fst snd] in E.
  destruct (os_WriteFile _ _ _ w4) as [[e|] w5]; cbn in E; injection E as <- <-.
  - eexists _, (Some (ID record)).
    split; [apply (save_failed f env (dataPath st1) recs ri now record now' srv e Hc)|].
    cbn. rewrite <- !app_assoc. repeat split; reflexivity.
  - eexists _, (Some (ID record)).
    split; [apply (saved f env (dataPath st1) recs ri now record now' srv Hc)|].
    cbn. rewrite <- !app_assoc. repeat split; reflexivity.
Qed.
(** The managed run in terms of the provider: its one call, the answer it
    records and the world it leaves. *)
Lemma main_managed_calls st st1 api config f env :
  setup st = (Ret (Ok (api, config)), st1) ->
  heap st1 !! config = Some (mkConfig (Some f) env) ->
  RecordID f <> "" ->
  let rc := ZoneIdentifier (ZoneID f) in
  let p := mkUpdate (RecordID f) "A" (CNAME f) (SysIP env) 120
                    (Some "Automatically set by gddns") (Some false) in
  let a := UpdateDNSRecord api rc p (world st1) in
  main st =
    (match a.1 with
     | Ok _ => Ret tt
     | Err e => Fatal ("Error updating DNS record: " +:+ e)
     end,
     mkState a.2 (setDevMode st1) (dataPath st1) (heap st1)
             (out st1 ++ EvUpdate rc p a.1
                  :: match a.1 with
                     | Ok _ => [line "DNS record updated successfully."]
                     | Err _ => []
                     end)).
Proof.
  intros Hsetup Hheap Hid rc p a.
  unfold main. unfold bind at 1. rewrite Hsetup.
  unfold bind at 1. rewrite (file_of_run _ _ _ _ Hheap).
  apply String.eqb_neq in Hid. rewrite Hid. cbn [negb].
  unfold bind at 1. rewrite (updateRecord_run _ _ _ _ _ Hheap).
  cbv zeta. fold rc p a.
  destruct a as [[r|e] w]; cbn; unfold fmt_Println, log, log_Fatal, emit; cbn;
    rewrite <- ?app_assoc; reflexivity.
Qed.

(** The first run in terms of the provider, the clock and the disk: each
    call is made on the world the call before left, its answer is what the
    trace records and what decides the next step. *)
Lemma main_unmanaged_calls st st1 api config f env :
  setup st = (Ret (Ok (api, config)), st1) ->
  heap st1 !! config = Some (mkConfig (Some f) env) ->
  RecordID f = "" ->
  let rc := ZoneIdentifier (ZoneID f) in
  let q := mkList "A" (CNAME f) in
  let l := ListDNSRecords api rc q (world st1) in
  let t1 := time_Now l.2 in
  let pa := a_record f env t1.1 in
  let a := CreateDNSRecord api rc pa t1.2 in
  let t2 := time_Now a.2 in
  let ps := srv_record f t2.1 in
  let b := CreateDNSRecord api rc ps t2.2 in
  let path := config_path (dataPath st1) in
  let wr id := os_WriteFile path (config_text f id) 384 b.2 in
  let checked := [line "No DNS record ID was set..."; EvList rc q l.1] in
  let ended w h evs := mkState w (setDevMode st1) (dataPath st1) h (out st1 ++ evs) in
  main st =
    match l.1 with
    | Err e => (Fatal ("Error veryifying dns state: " +:+ e), ended l.2 (heap st1) checked)
    | Ok (_, ri) =>
        if Z.eqb (Count ri) 0 then
          let asked := checked ++ [line "new DNS record supplied, assuming new DNS record...";
                                   EvCreate rc pa a.1] in
          match a.1 with
          | Err e => (Fatal ("Error creating records: " +:+ e), ended a.2 (heap st1) asked)
          | Ok record =>
              match b.1 with
              | Err e =>
                  (Fatal ("Error creating records: " +:+ e),
                   ended b.2 (heap st1) (asked ++ [EvCreate rc ps b.1]))
              | Ok _ =>
                  let saved := asked ++ [EvCreate rc ps b.1;
                                         line "DNS record created successfully...";
                                         EvWriteFile path (config_text f (ID record)) 384
                                                     (wr (ID record)).1] in
                  let h := <[config := config_after f env (Some (ID record))]> (heap st1) in
                  match (wr (ID record)).1 with
                  | Some e =>
                      (Fatal ("Error saving config: " +:+ e), ended (wr (ID record)).2 h saved)
                  | None =>
                      (Ret tt,
                       ended (wr (ID record)).2 h
                             (saved ++ [line "DNS record saved successfully."]))
                  end
              end
          end
        else
          (Fatal "Error veryifying dns state: record already exists",
           ended l.2 (heap st1) checked)
    end.
Proof.
  intros Hsetup Hheap Hid. cbv zeta.
  assert (Hlt : config < length (heap st1)) by (eapply lookup_lt_Some; exact Hheap).
  unfold main. unfold bind at 1. rewrite Hsetup.
  unfold bind at 1. rewrite (file_of_run _ _ _ _ Hheap).
  rewrite Hid. cbn [String.eqb negb].
  unfold bind at 1. rewrite (file_of_run _ _ _ _ Hheap).
  rewrite Hid. cbn [String.eqb].
  unfold bind at 1. unfold fmt_Println at 1, log at 1.
  unfold bind at 1.
  match goal with |- context [findRecord api config ?s] =>
    rewrite (findRecord_run api s config f env Hheap) end.
  cbn [world emit].
  destruct (ListDNSRecords _ _ _ _) as [[[recs ri]|e] w]; cbn [fst snd].
  2:{ cbn; unfold log_Fatal, emit; cbn; rewrite <- ?app_assoc; reflexivity. }
  destruct (Z.eqb (Count ri) 0); cbn [negb].
  2:{ cbn; unfold log_Fatal, emit; cbn; rewrite <- ?app_assoc; reflexivity. }
  unfold bind at 1. unfold fmt_Println at 1, log at 1.
  unfold bind at 1.
  match goal with |- context [createRecords api config ?s] =>
    rewrite (createRecords_run api s config f env Hheap) end.
  cbv zeta. cbn [world emit with_world].
  unfold a_record, srv_record.
  destruct (time_Now w) as [now w1]; cbn [fst snd].
  destruct (CreateDNSRecord api _ _ w1) as [[record|e] w2]; cbn [fst snd].
  2:{ cbn; unfold log_Fatal, emit; cbn; rewrite <- ?app_assoc; reflexivity. }
  destruct (time_Now w2) as [now' w3]; cbn [fst snd].
  destruct (CreateDNSRecord api _ _ w3) as [[srv|e] w4]; cbn [fst snd].
  2:{ cbn; unfold log_Fatal, emit; cbn; rewrite <- ?app_assoc; reflexivity. }
  unfold bind at 1. unfold fmt_Println at 1, log at 1.
  unfold bind at 1.
  match goal with |- context [saveConfig config ?s] =>
    rewrite (saveConfig_run s config
               (mkCfgFile (Domain f) (CNAME f) (ZoneID f) (ID record)) env)
      by (cbn; apply list_lookup_insert_eq; exact Hlt) end.
  cbv zeta. cbn [world emit with_world with_heap dataPath fst snd].
  unfold config_path, config_text.
  destruct (os_WriteFile _ _ _ w4) as [[e|] w5]; cbn;
    unfold fmt_Println, log, log_Fatal, emit; cbn; rewrite <- ?app_assoc; reflexivity.
Qed.
End MainRuns.

(** ** Properties of the reconciliation *)


Section Claims.
Context {W : Type} {RT : Runtime W}.
Implicit Types (st : state W) (config : ptr) (f : CfgFile) (env : EnvT).

(** C1: a configuration that carries a record id (Managed) makes one run
    issue exactly one provider update, for the A record, with TTL 120 and
    proxied=false; the run issues no create, no listing (conflict check)
    and no state-store write.  The update is the provider's
    [UpdateDNSRecord] applied to the world [setup] left: its answer is the
    one recorded and the one that decides how the run ends, and the world
    it returns is the world of the final state. *)
Theorem managed_run_updates_once st st1 api config f env :
  setup st = (Ret (Ok (api, config)), st1) ->
  heap st1 !! config = Some (mkConfig (Some f) env) ->
  RecordID f <> "" ->
  let evs := events_since st1 (main st).2 in
  let rc := ZoneIdentifier (ZoneID f) in
  let p := mkUpdate (RecordID f) "A" (CNAME f) (SysIP env) 120
                    (Some "Automatically set by gddns") (Some false) in
  let call := UpdateDNSRecord api rc p (world st1) in
  updates evs = [EvUpdate rc p call.1]
  /\ world (main st).2 = call.2
  /\ (main st).1 = match call.1 with
                   | Ok _ => Ret tt
                   | Err e => Fatal ("Error updating DNS record: " +:+ e)
                   end
  /\ uType p = "A" /\ uTTL p = 120%Z /\ uProxied p = Some false
  /\ creates evs = []
  /\ lists evs = []
  /\ writes evs = [].
Proof.
  intros Hsetup Hheap Hid evs rc p call.
  pose proof (main_managed_calls _ _ _ _ _ _ Hsetup Hheap Hid) as E. cbv zeta in E.
  fold rc p call in E. subst evs. rewrite E. clear E.
  unfold events_since. cbn [fst snd out world]. rewrite drop_app_length.
  destruct call as [[r|e] w]; cbn; repeat split; reflexivity.
Qed.

(** C3: without a record id (Unmanaged), when the conflict check reports a
    match count other than zero, the run issues no create, writes nothing
    to the state store and ends fatally with "record already exists". *)
Theorem conflict_stops_run st st1 api config f env recs ri :
  setup st = (Ret (Ok (api, config)), st1) ->
  heap st1 !! config = Some (mkConfig (Some f) env) ->
  RecordID f = "" ->
  let evs := events_since st1 (main st).2 in
  lists evs = [EvList (ZoneIdentifier (ZoneID f)) (mkList "A" (CNAME f)) (Ok (recs, ri))] ->
  Count ri <> 0%Z ->
  creates evs = []
  /\ writes evs = []
  /\ (main st).1 = Fatal "Error veryifying dns state: record already exists".
Proof.
  intros Hsetup Hheap Hid evs Hlist Hcount.
  destruct (main_unmanaged _ _ _ _ _ _ Hsetup Hheap Hid)
    as (evs' & id & Hrun & Hout & _ & _).
  subst evs. rewrite (events_since_app _ _ _ Hout) in *.
  inversion Hrun; subst; cbn in Hlist; simplify_eq; try contradiction.
  repeat split; reflexivity.
Qed.

(** C2: without a record id, when the conflict check reports a match
    count of zero, the run issues exactly one create for the A record and
    then, only if that create succeeded, exactly one create for the SRV
    record; no other create is issued.  Each create is the provider's
    [CreateDNSRecord] applied to the world the step before left; its answer
    is the one recorded, the answer to the A create decides whether the SRV
    create is made, and the world of the last call made is the world handed
    on. *)
Theorem unmanaged_run_creates_in_order st st1 api config f env recs ri :
  setup st = (Ret (Ok (api, config)), st1) ->
  heap st1 !! config = Some (mkConfig (Some f) env) ->
  RecordID f = "" ->
  let evs := events_since st1 (main st).2 in
  let rc := ZoneIdentifier (ZoneID f) in
  let l := ListDNSRecords api rc (mkList "A" (CNAME f)) (world st1) in
  let t1 := time_Now l.2 in
  let pa := mkCreate "A" (CNAME f) (SysIP env) None 300 (Some false)
                     ("Automatically set by gddns at " +:+ t1.1) in
  let a := CreateDNSRecord api rc pa t1.2 in
  let t2 := time_Now a.2 in
  let ps := mkCreate "SRV" (CNAME f) ""
                     (Some (srv_data (strings_Join [CNAME f; Domain f] ".")))
                     900 (Some false)
                     ("Automatically set by gddns at " +:+ t2.1) in
  let b := CreateDNSRecord api rc ps t2.2 in
  l.1 = Ok (recs, ri) ->
  Count ri = 0%Z ->
  lists evs = [EvList rc (mkList "A" (CNAME f)) (Ok (recs, ri))]
  /\ creates evs = EvCreate rc pa a.1
                   :: match a.1 with
                      | Ok _ => [EvCreate rc ps b.1]
                      | Err _ => []
                      end
  /\ match a.1 with
     | Err e =>
         world (main st).2 = a.2
         /\ (main st).1 = Fatal ("Error creating records: " +:+ e)
     | Ok record =>
         match b.1 with
         | Err e =>
             world (main st).2 = b.2
             /\ (main st).1 = Fatal ("Error creating records: " +:+ e)
         | Ok _ =>
             world (main st).2
             = (os_WriteFile
                  (strings_Join [dataPath st1; "config.json"] "/")
                  (render json_quote "" "  " 0
                     (json_of_CfgFile
                        (mkCfgFile (Domain f) (CNAME f) (ZoneID f) (ID record))))
                  384 b.2).2
         end
     end.
Proof.
  intros Hsetup Hheap Hid evs rc l t1 pa a t2 ps b Hl Hc.
  pose proof (main_unmanaged_calls _ _ _ _ _ _ Hsetup Hheap Hid) as E. cbv zeta in E.
  unfold a_record, srv_record, config_path, config_text, config_after in E.
  fold rc in E. fold l in E. fold t1 in E. fold pa in E. fold a in E.
  fold t2 in E. fold ps in E. fold b in E.
  subst evs. rewrite E. clear E. rewrite Hl, Hc. cbn [Z.eqb].
  destruct a as [[record|e] wa]; cbn [fst snd].
  2:{ unfold events_since. cbn [fst snd out world]. rewrite drop_app_length.
      repeat split; reflexivity. }
  destruct b as [[srv|e] wb]; cbn [fst snd].
  2:{ unfold events_since. cbn [fst snd out world]. rewrite drop_app_length.
      repeat split; reflexivity. }
  destruct (os_WriteFile _ _ _ wb) as [[e|] ww]; cbn [fst snd];
    unfold events_since; cbn [fst snd out world]; rewrite drop_app_length;
    repeat split; reflexivity.
Qed.

(** C4: without a record id, when the A record is created and the create
    of the SRV record then fails, the run ends fatally, the shared
    configuration is as it was (its record id still empty) and nothing is
    written to the state store. *)
Theorem srv_failure_keeps_local_state st st1 api config f env rc pa record ps e :
  setup st = (Ret (Ok (api, config)), st1) ->
  heap st1 !! config = Some (mkConfig (Some f) env) ->
  RecordID f = "" ->
  let evs := events_since st1 (main st).2 in
  creates evs = [EvCreate rc pa (Ok record); EvCreate rc ps (Err e)] ->
  (main st).1 = Fatal ("Error creating records: " +:+ e)
  /\ heap (main st).2 = heap st1
  /\ (exists f', heap (main st).2 !! config = Some (mkConfig (Some f') env)
                 /\ RecordID f' = "")
  /\ writes evs = [].
Proof.
  intros Hsetup Hheap Hid evs Hcreates.
  destruct (main_unmanaged _ _ _ _ _ _ Hsetup Hheap Hid)
    as (evs' & id & Hrun & Hout & Hfinal & _).
  subst evs. rewrite (events_since_app _ _ _ Hout) in *.
  inversion Hrun; subst; cbn in Hcreates; simplify_eq.
  rewrite Hfinal. cbn [config_after].
  rewrite list_insert_id by exact Hheap.
  repeat split; try reflexivity. exists f. split; assumption.
Qed.

(** C5: without a record id, when both creates succeed, the record id of
    the shared configuration becomes the id returned by the create of the
    A record (the first create), and the state store is saved once, with
    the object of exactly the fields domain, cname, zone_id and record_id;
    a failed save ends the run fatally.  The creates are the provider's
    answers, the save is [os.WriteFile] applied to the world the SRV create
    left: its answer is the one recorded and the one that decides how the
    run ends, and the world it returns is the world of the final state. *)
Theorem both_creates_then_save st st1 api config f env recs ri record srv :
  setup st = (Ret (Ok (api, config)), st1) ->
  heap st1 !! config = Some (mkConfig (Some f) env) ->
  RecordID f = "" ->
  let evs := events_since st1 (main st).2 in
  let rc := ZoneIdentifier (ZoneID f) in
  let l := ListDNSRecords api rc (mkList "A" (CNAME f)) (world st1) in
  let t1 := time_Now l.2 in
  let pa := mkCreate "A" (CNAME f) (SysIP env) None 300 (Some false)
                     ("Automatically set by gddns at " +:+ t1.1) in
  let a := CreateDNSRecord api rc pa t1.2 in
  let t2 := time_Now a.2 in
  let ps := mkCreate "SRV" (CNAME f) ""
                     (Some (srv_data (strings_Join [CNAME f; Domain f] ".")))
                     900 (Some false)
                     ("Automatically set by gddns at " +:+ t2.1) in
  let b := CreateDNSRecord api rc ps t2.2 in
  let path := strings_Join [dataPath st1; "config.json"] "/" in
  let text := render json_quote "" "  " 0
                (JObject [("domain", JString (Domain f));
                          ("cname", JString (CNAME f));
                          ("zone_id", JString (ZoneID f));
                          ("record_id", JString (ID record))]) in
  let save := os_WriteFile path text 384 b.2 in
  l.1 = Ok (recs, ri) ->
  Count ri = 0%Z ->
  a.1 = Ok record ->
  b.1 = Ok srv ->
  creates evs = [EvCreate rc pa (Ok record); EvCreate rc ps (Ok srv)]
  /\ heap (main st).2 !! config =
       Some (mkConfig (Some (mkCfgFile (Domain f) (CNAME f) (ZoneID f) (ID record))) env)
  /\ writes evs = [EvWriteFile path text 384 save.1]
  /\ world (main st).2 = save.2
  /\ (main st).1 = match save.1 with
                   | Some err => Fatal ("Error saving config: " +:+ err)
                   | None => Ret tt
                   end.
Proof.
  intros Hsetup Hheap Hid evs rc l t1 pa a t2 ps b path text save Hl Hc Ha Hb.
  assert (Hlt : config < length (heap st1)) by (eapply lookup_lt_Some; exact Hheap).
  pose proof (main_unmanaged_calls _ _ _ _ _ _ Hsetup Hheap Hid) as E. cbv zeta in E.
  unfold a_record, srv_record, config_path, config_text, config_after in E.
  fold rc in E. fold l in E. fold t1 in E. fold pa in E. fold a in E.
  fold t2 in E. fold ps in E. fold b in E.
  subst evs. rewrite E. clear E. rewrite Hl, Hc, Ha, Hb. cbn [Z.eqb].
  change (os_WriteFile _ _ 384 b.2) with save.
  destruct save as [[e|] ww]; cbn [fst snd];
    unfold events_since; cbn [fst snd out world heap]; rewrite drop_app_length;
    (split; [reflexivity|]);
    (split; [apply list_lookup_insert_eq; exact Hlt|]);
    repeat split; reflexivity.
Qed.


(** C7: the first run for domain "example.com", label "home", zone "z1",
    no record id, address "203.0.113.7" and a conflict check reporting no
    match: the A record is asked for with name "home", content
    "203.0.113.7", TTL 300 and proxied=false; when the provider creates it
    the SRV record is asked for with target "home.example.com", port 25565,
    priority 0, weight 5 and TTL 900; when the provider creates that too,
    the state file is written with the record id the provider returned for
    the A record.  Every answer is the provider's (or the disk's) on the
    world the step before left. *)
Theorem first_run_scenario st st1 api config email key recs ri :
  setup st = (Ret (Ok (api, config)), st1) ->
  heap st1 !! config =
    Some (mkConfig (Some (mkCfgFile "example.com" "home" "z1" ""))
                   (mkEnv email key "203.0.113.7")) ->
  let evs := events_since st1 (main st).2 in
  let rc := ZoneIdentifier "z1" in
  let l := ListDNSRecords api rc (mkList "A" "home") (world st1) in
  let t1 := time_Now l.2 in
  let pa := mkCreate "A" "home" "203.0.113.7" None 300 (Some false)
                     ("Automatically set by gddns at " +:+ t1.1) in
  let a := CreateDNSRecord api rc pa t1.2 in
  let t2 := time_Now a.2 in
  let ps := mkCreate "SRV" "home" "" (Some (srv_data "home.example.com")) 900 (Some false)
                     ("Automatically set by gddns at " +:+ t2.1) in
  let b := CreateDNSRecord api rc ps t2.2 in
  let path := strings_Join [dataPath st1; "config.json"] "/" in
  let text id := render json_quote "" "  " 0
                   (JObject [("domain", JString "example.com");
                             ("cname", JString "home");
                             ("zone_id", JString "z1");
                             ("record_id", JString id)]) in
  let save id := os_WriteFile path (text id) 384 b.2 in
  l.1 = Ok (recs, ri) ->
  Count ri = 0%Z ->
  creates evs = EvCreate rc pa a.1
                :: match a.1 with
                   | Ok _ => [EvCreate rc ps b.1]
                   | Err _ => []
                   end
  /\ srv_data "home.example.com" !! "target" = Some (VStr "home.example.com")
  /\ srv_data "home.example.com" !! "port" = Some (VInt 25565)
  /\ srv_data "home.example.com" !! "priority" = Some (VInt 0)
  /\ srv_data "home.example.com" !! "weight" = Some (VInt 5)
  /\ match a.1, b.1 with
     | Ok record, Ok _ =>
         writes evs = [EvWriteFile path (text (ID record)) 384 (save (ID record)).1]
         /\ world (main st).2 = (save (ID record)).2
         /\ heap (main st).2 !! config =
              Some (mkConfig (Some (mkCfgFile "example.com" "home" "z1" (ID record)))
                             (mkEnv email key "203.0.113.7"))
     | Ok _, Err _ => writes evs = [] /\ world (main st).2 = b.2
     | Err _, _ => writes evs = [] /\ world (main st).2 = a.2
     end.
Proof.
  intros Hsetup Hheap evs rc l t1 pa a t2 ps b path text save Hl Hc.
  assert (Hlt : config < length (heap st1)) by (eapply lookup_lt_Some; exact Hheap).
  pose proof (main_unmanaged_calls _ _ _ _ _ _ Hsetup Hheap eq_refl) as E. cbv zeta in E.
  unfold a_record, srv_record, config_path, config_text, config_after in E.
  cbn [Domain CNAME ZoneID SysIP strings_Join String.concat] in E.
  change ("home" +:+ "." +:+ "example.com") with "home.example.com" in E.
  fold rc in E. fold l in E. fold t1 in E. fold pa in E. fold a in E.
  fold t2 in E. fold ps in E. fold b in E.
  subst evs. rewrite E. clear E. rewrite Hl, Hc. cbn [Z.eqb].
  assert (Hd : srv_data "home.example.com" !! "target" = Some (VStr "home.example.com")
               /\ srv_data "home.example.com" !! "port" = Some (VInt 25565)
               /\ srv_data "home.example.com" !! "priority" = Some (VInt 0)
               /\ srv_data "home.example.com" !! "weight" = Some (VInt 5))
    by (repeat split; vm_compute; reflexivity).
  destruct Hd as (Hd1 & Hd2 & Hd3 & Hd4).
  destruct a as [[record|e] wa]; cbn [fst snd].
  2:{ unfold events_since. cbn [fst snd out world]. rewrite drop_app_length.
      repeat split; try assumption; reflexivity. }
  destruct b as [[srv|e] wb]; cbn [fst snd].
  2:{ unfold events_since. cbn [fst snd out world]. rewrite drop_app_length.
      repeat split; try assumption; reflexivity. }
  change (os_WriteFile _ _ 384 wb) with (save (ID record)).
  destruct (save (ID record)) as [[e|] ww]; cbn [fst snd];
    unfold events_since; cbn [fst snd out world heap]; rewrite drop_app_length;
    (split; [reflexivity|]); do 4 (split; [assumption|]);
    (split; [reflexivity|]); (split; [reflexivity|]);
    apply list_lookup_insert_eq; exact Hlt.
Qed.

(** C8: whatever the configuration, the state-store write of [saveConfig]
    is the object of the four fields domain, cname, zone_id and record_id
    and nothing else; the credentials and the resolved address, and the
    rest of the runtime, have no influence on the path, text and mode
    written. *)
Theorem saveConfig_writes_four_fields st config f env :
  heap st !! config = Some (mkConfig (Some f) env) ->
  let evs := events_since st (saveConfig config st).2 in
  written evs =
    [(strings_Join [dataPath st; "config.json"] "/",
      render json_quote "" "  " 0
        (JObject [("domain", JString (Domain f));
                  ("cname", JString (CNAME f));
                  ("zone_id", JString (ZoneID f));
                  ("record_id", JString (RecordID f))]),
      384%Z)]
  /\ length evs = 1
  /\ forall st' env',
       heap st' !! config = Some (mkConfig (Some f) env') ->
       dataPath st' = dataPath st ->
       written (events_since st' (saveConfig config st').2) = written evs.
Proof.
  intros Hheap evs.
  assert (Hev : forall s e, heap s !! config = Some (mkConfig (Some f) e) ->
            exists r, events_since s (saveConfig config s).2 =
              [EvWriteFile (strings_Join [dataPath s; "config.json"] "/")
                 (render json_quote "" "  " 0 (json_of_CfgFile f)) 384 r]).
  { intros s e H. rewrite (saveConfig_run _ _ _ _ H). cbv zeta. cbn [snd].
    eexists. apply events_since_app. reflexivity. }
  destruct (Hev st env Hheap) as [r Hr]. subst evs. rewrite Hr.
  split; [reflexivity|]. split; [reflexivity|].
  intros st' env' Hheap' Hpath. destruct (Hev st' env' Hheap') as [r' Hr'].
  rewrite Hr', Hpath. reflexivity.
Qed.


(** C10: whenever the HTTP call itself succeeds and the body is read, the
    resolver hands back the body as the address and no error, whatever the
    status code of the response. *)
Theorem getPublicIP_ignores_status st code data w :
  http_Get "https://api.ipify.org?format=text" (world st)
    = (Ok (mkResponse code (mkBody data None)), w) ->
  (getPublicIP st).1 = Ret (data, None).
Proof.
  intros Hget. unfold getPublicIP, net_http_Get, bind, call, log, ret.
  rewrite Hget. reflexivity.
Qed.
End Claims.

(** ** How [setup] runs *)

Section SetupRuns.
Context {W : Type} {RT : Runtime W}.
Implicit Types (st : state W) (config : ptr) (f : CfgFile) (env : EnvT).

Lemma lookup_fresh (h : list Config) (c : Config) : (h ++ [c]) !! length h = Some c.
Proof. rewrite lookup_app_r by lia. rewrite Nat.sub_diag. reflexivity. Qed.

Lemma insert_fresh (h : list Config) (c c' : Config) :
  <[length h := c']> (h ++ [c]) = h ++ [c'].
Proof. rewrite insert_app_r_alt by lia. rewrite Nat.sub_diag. reflexivity. Qed.

(** [setup], and [loadConfigAndEnv] inside it, in one piece. *)
Lemma setup_run st :
  let o := os_Open (strings_Join [dataPath st; "config.json"] "/") (world st) in
  let key := os_Getenv "CF_API_KEY" o.2 in
  let email := os_Getenv "CF_EMAIL" o.2 in
  let g := http_Get echo_url o.2 in
  let made c := with_heap (heap st ++ [c]) (with_world o.2 st) in
  let asked c := emit (EvHttpGet echo_url g.1) (with_world g.2 (made c)) in
  setup st =
    match o.1 with
    | Err e => (Ret (Err ("error loading configuration: " +:+ e)), with_world o.2 st)
    | Ok file =>
        match json_Decode file with
        | Err e => (Ret (Err ("error loading configuration: " +:+ e)), made zeroConfig)
        | Ok decoded =>
            if (String.eqb key "" || String.eqb email "")%bool then
              (Fatal "Cloudflare API credentials are not set in environment variables.",
               made (mkConfig decoded (mkEnv email key "")))
            else
              match g.1 with
              | Err e =>
                  (Fatal ("Error getting public IP: " +:+ e),
                   asked (mkConfig decoded (mkEnv email key "")))
              | Ok resp =>
                  match body_err (RespBody resp) with
                  | Some e =>
                      (Fatal ("Error getting public IP: " +:+ e),
                       asked (mkConfig decoded (mkEnv email key "")))
                  | None =>
                      let c := mkConfig decoded (mkEnv email key (body_data (RespBody resp))) in
                      match cloudflare_New key email with
                      | Err e =>
                          (Ret (Err ("error initializing Cloudflare client: " +:+ e)), asked c)
                      | Ok api => (Ret (Ok (api, length (heap st))), asked c)
                      end
                  end
              end
        end
    end.
Proof.
  cbv zeta.
  unfold setup, loadConfigAndEnv, getPublicIP, net_http_Get, env_of.
  unfold bind, get_dataPath, call, alloc, store, log, ret, log_Fatal, load.
  unfold echo_url. cbn.
  destruct (os_Open _ _) as [[file|e] w1]; cbn; [|reflexivity].
  destruct (json_Decode file) as [decoded|e]; cbn; [|reflexivity].
  rewrite lookup_fresh. cbn.
  destruct (_ || _)%bool; cbn; [rewrite insert_fresh; reflexivity|].
  destruct (http_Get _ w1) as [[resp|e] w2]; cbn.
  - destruct (body_err (RespBody resp)) as [e|]; cbn.
    + rewrite insert_fresh. reflexivity.
    + repeat (progress (rewrite ?insert_fresh, ?lookup_fresh; cbn)).
      destruct (cloudflare_New _ _); reflexivity.
  - rewrite insert_fresh. reflexivity.
Qed.

(** What every run of [setup] has in common, and what a successful one
    hands over. *)
Lemma setup_inv st r st1 :
  setup st = (r, st1) ->
  dataPath st1 = dataPath st
  /\ setDevMode st1 = setDevMode st
  /\ (exists pre, out st1 = out st ++ pre
                  /\ (pre = [] \/ exists g, pre = [EvHttpGet echo_url g]))
  /\ forall api config,
       r = Ret (Ok (api, config)) ->
       exists decoded code ip,
         let key := os_Getenv "CF_API_KEY"
                      (os_Open (strings_Join [dataPath st; "config.json"] "/") (world st)).2 in
         let email := os_Getenv "CF_EMAIL"
                        (os_Open (strings_Join [dataPath st; "config.json"] "/") (world st)).2 in
         config = length (heap st)
         /\ heap st1 = heap st ++ [mkConfig decoded (mkEnv email key ip)]
         /\ key <> "" /\ email <> ""
         /\ cloudflare_New key email = Ok api
         /\ out st1 = out st ++ [EvHttpGet echo_url (Ok (mkResponse code (mkBody ip None)))].
Proof.
  intros Hs. rewrite setup_run in Hs. cbv zeta in Hs.
  destruct (os_Open _ _) as [[file|e] w1]; cbn [fst snd] in Hs.
  2:{ injection Hs as <- <-. repeat split; try reflexivity.
      - exists []. rewrite app_nil_r. split; [reflexivity|left; reflexivity].
      - intros ? ? [=]. }
  destruct (json_Decode file) as [decoded|e].
  2:{ injection Hs as <- <-. repeat split; try reflexivity.
      - exists []. rewrite app_nil_r. split; [reflexivity|left; reflexivity].
      - intros ? ? [=]. }
  destruct (String.eqb_spec (os_Getenv "CF_API_KEY" w1) "") as [Hk|Hk];
    cbn [orb] in Hs.
  { injection Hs as <- <-. repeat split; try reflexivity.
    - exists []. rewrite app_nil_r. split; [reflexivity|left; reflexivity].
    - intros ? ? [=]. }
  destruct (String.eqb_spec (os_Getenv "CF_EMAIL" w1) "") as [He|He].
  { injection Hs as <- <-. repeat split; try reflexivity.
    - exists []. rewrite app_nil_r. split; [reflexivity|left; reflexivity].
    - intros ? ? [=]. }
  destruct (http_Get echo_url w1) as [[resp|e] w2]; cbn [fst snd] in Hs.
  2:{ injection Hs as <- <-. repeat split; try reflexivity.
      - eexists. split; [reflexivity|right; eexists; reflexivity].
      - intros ? ? [=]. }
  destruct resp as [code [ip [e|]]]; cbn [RespBody body_err body_data] in Hs.
  { injection Hs as <- <-. repeat split; try reflexivity.
    - eexists. split; [reflexivity|right; eexists; reflexivity].
    - intros ? ? [=]. }
  destruct (cloudflare_New _ _) as [api|e] eqn:Hnew; injection Hs as <- <-.
  - repeat split; try reflexivity.
    + eexists. split; [reflexivity|right; eexists; reflexivity].
    + intros api' config' [= <- <-]. exists decoded, code, ip. cbn.
      repeat split; try reflexivity; assumption.
  - repeat split; try reflexivity.
    + eexists. split; [reflexivity|right; eexists; reflexivity].
    + intros ? ? [=].
Qed.

(** A successful [setup], told forwards. *)
Lemma setup_ok st file w1 decoded code ip w2 api :
  os_Open (strings_Join [dataPath st; "config.json"] "/") (world st) = (Ok file, w1) ->
  json_Decode file = Ok decoded ->
  os_Getenv "CF_API_KEY" w1 <> "" ->
  os_Getenv "CF_EMAIL" w1 <> "" ->
  http_Get echo_url w1 = (Ok (mkResponse code (mkBody ip None)), w2) ->
  cloudflare_New (os_Getenv "CF_API_KEY" w1) (os_Getenv "CF_EMAIL" w1) = Ok api ->
  setup st =
    (Ret (Ok (api, length (heap st))),
     mkState w2 (setDevMode st) (dataPath st)
             (heap st ++ [mkConfig decoded
                            (mkEnv (os_Getenv "CF_EMAIL" w1) (os_Getenv "CF_API_KEY" w1) ip)])
             (out st ++ [EvHttpGet echo_url (Ok (mkResponse code (mkBody ip None)))])).
Proof.
  intros Ho Hd Hk He Hg Hn. rewrite setup_run. cbv zeta.
  rewrite Ho. cbn [fst snd]. rewrite Hd.
  apply String.eqb_neq in Hk, He. rewrite Hk, He. cbn [orb].
  rewrite Hg. cbn [fst snd RespBody body_err body_data]. rewrite Hn. reflexivity.
Qed.
End SetupRuns.

(** ** Start-up, failures and bounds *)

Section Startup.
Context {W : Type} {RT : Runtime W}.
Implicit Types (st : state W) (config : ptr) (f : CfgFile) (env : EnvT).

(** [setup] reads the configuration and asks for the address, and that is
    all: it issues no provider call and writes no file, asks the echo service
    at most once, and leaves the data path alone. *)
Theorem setup_is_quiet st :
  let evs := events_since st (setup st).2 in
  updates evs = [] /\ lists evs = [] /\ creates evs = [] /\ writes evs = []
  /\ (evs = [] \/ exists g, evs = [EvHttpGet echo_url g])
  /\ dataPath (setup st).2 = dataPath st.
Proof.
  destruct (setup st) as [r st1] eqn:Hs. cbn [snd].
  destruct (setup_inv _ _ _ Hs) as (Hp & _ & (pre & Hout & Hpre) & _).
  rewrite (events_since_app _ _ _ Hout).
  destruct Hpre as [->|[g ->]]; repeat split; auto; right; eexists; reflexivity.
Qed.

(** A successful [setup] hands over a configuration that was just made,
    with both credentials non-empty and taken from the environment, an api
    built from them, and as address the body the echo service sent. *)
Theorem setup_hands_over st st1 api config :
  setup st = (Ret (Ok (api, config)), st1) ->
  exists c code,
    heap st1 = heap st ++ [c]
    /\ heap st1 !! config = Some c
    /\ CFApiKey (Env c) <> "" /\ CFEmail (Env c) <> ""
    /\ cloudflare_New (CFApiKey (Env c)) (CFEmail (Env c)) = Ok api
    /\ events_since st st1
       = [EvHttpGet echo_url (Ok (mkResponse code (mkBody (SysIP (Env c)) None)))].
Proof.
  intros Hs.
  destruct (setup_inv _ _ _ Hs) as (_ & _ & _ & Hok).
  destruct (Hok api config eq_refl) as (decoded & code & ip & Hc & Hh & Hk & He & Hn & Hout).
  eexists _, code. split; [exact Hh|]. rewrite Hh, Hc.
  split; [apply lookup_fresh|]. cbn [Env CFApiKey CFEmail SysIP].
  repeat split; try assumption. apply events_since_app. exact Hout.
Qed.

(** Without the configuration file the run ends in "Setup failed", and
    nothing else has happened. *)
Theorem missing_file_is_fatal st e w :
  os_Open (strings_Join [dataPath st; "config.json"] "/") (world st) = (Err e, w) ->
  (main st).1 = Fatal ("Setup failed: error loading configuration: " +:+ e)
  /\ events_since st (main st).2 = []
  /\ heap (main st).2 = heap st.
Proof.
  intros Ho. unfold main, bind. rewrite setup_run. cbv zeta. rewrite Ho.
  cbn. unfold events_since. cbn. rewrite drop_all. repeat split; reflexivity.
Qed.

(** A configuration file that does not decode ends the run the same way,
    before the environment is looked at. *)
Theorem malformed_file_is_fatal st file e w :
  os_Open (strings_Join [dataPath st; "config.json"] "/") (world st) = (Ok file, w) ->
  json_Decode file = Err e ->
  (main st).1 = Fatal ("Setup failed: error loading configuration: " +:+ e)
  /\ events_since st (main st).2 = [].
Proof.
  intros Ho Hd. unfold main, bind. rewrite setup_run. cbv zeta. rewrite Ho.
  cbn [fst snd]. rewrite Hd.
  cbn. unfold events_since. cbn. rewrite drop_all. repeat split; reflexivity.
Qed.

(** When either credential is missing from the environment the run ends
    fatally before any request leaves the host: nothing at all is emitted.
    The file is read before the environment, so the message is that of the
    credentials only when the configuration file opened and decoded, and
    otherwise that of the file. *)
Theorem missing_credentials_are_fatal st :
  let o := os_Open (strings_Join [dataPath st; "config.json"] "/") (world st) in
  os_Getenv "CF_API_KEY" o.2 = "" \/ os_Getenv "CF_EMAIL" o.2 = "" ->
  events_since st (main st).2 = []
  /\ (main st).1
     = Fatal match o.1 with
             | Err e => "Setup failed: error loading configuration: " +:+ e
             | Ok file =>
                 match json_Decode file with
                 | Err e => "Setup failed: error loading configuration: " +:+ e
                 | Ok _ => "Cloudflare API credentials are not set in environment variables."
                 end
             end.
Proof.
  intros o Hc. unfold main, bind. rewrite setup_run. cbv zeta. fold o.
  assert (Hb : (String.eqb (os_Getenv "CF_API_KEY" o.2) ""
                || String.eqb (os_Getenv "CF_EMAIL" o.2) "")%bool = true).
  { destruct Hc as [-> | ->]; [reflexivity|]. apply orb_true_r. }
  rewrite Hb. clear Hb Hc.
  destruct o as [[file|e] w]; cbn [fst snd].
  - destruct (json_Decode file) as [decoded|e];
      cbn; unfold events_since; cbn; rewrite drop_all; split; reflexivity.
  - cbn. unfold events_since. cbn. rewrite drop_all. split; reflexivity.
Qed.

(** When the echo service cannot be reached the run ends fatally inside
    [loadConfigAndEnv]; the provider is never called. *)
Theorem unreachable_echo_is_fatal st file decoded w e w' :
  os_Open (strings_Join [dataPath st; "config.json"] "/") (world st) = (Ok file, w) ->
  json_Decode file = Ok decoded ->
  os_Getenv "CF_API_KEY" w <> "" ->
  os_Getenv "CF_EMAIL" w <> "" ->
  http_Get echo_url w = (Err e, w') ->
  (main st).1 = Fatal ("Error getting public IP: " +:+ e)
  /\ events_since st (main st).2 = [EvHttpGet echo_url (Err e)].
Proof.
  intros Ho Hd Hk He Hg. unfold main, bind. rewrite setup_run. cbv zeta. rewrite Ho.
  cbn [fst snd]. rewrite Hd.
  apply String.eqb_neq in Hk, He. rewrite Hk, He. cbn [orb]. rewrite Hg.
  cbn [fst snd]. split; [reflexivity|]. apply events_since_app. reflexivity.
Qed.

(** A body that breaks off while it is read ends the run the same way: the
    part that was read is not used as the address. *)
Theorem truncated_body_is_fatal st file decoded w code part e w' :
  os_Open (strings_Join [dataPath st; "config.json"] "/") (world st) = (Ok file, w) ->
  json_Decode file = Ok decoded ->
  os_Getenv "CF_API_KEY" w <> "" ->
  os_Getenv "CF_EMAIL" w <> "" ->
  http_Get echo_url w = (Ok (mkResponse code (mkBody part (Some e))), w') ->
  (main st).1 = Fatal ("Error getting public IP: " +:+ e)
  /\ updates (events_since st (main st).2) = []
  /\ creates (events_since st (main st).2) = []
  /\ lists (events_since st (main st).2) = [].
Proof.
  intros Ho Hd Hk He Hg. unfold main, bind. rewrite setup_run. cbv zeta. rewrite Ho.
  cbn [fst snd]. rewrite Hd.
  apply String.eqb_neq in Hk, He. rewrite Hk, He. cbn [orb]. rewrite Hg.
  cbn [fst snd RespBody body_err]. split; [reflexivity|].
  erewrite events_since_app by reflexivity. repeat split; reflexivity.
Qed.
End Startup.

(** ** More on the run after [setup] *)

Section Paths.
Context {W : Type} {RT : Runtime W}.
Implicit Types (st : state W) (config : ptr) (f : CfgFile) (env : EnvT).

(** A configuration whose embedded [*CfgFile] is nil (a file with none of
    the four fields) makes [main] panic at its first field access; nothing is
    asked of the provider and nothing is written. *)
Theorem nil_configuration_panics st st1 api config env :
  setup st = (Ret (Ok (api, config)), st1) ->
  heap st1 !! config = Some (mkConfig None env) ->
  main st = (Panic nil_dereference, st1).
Proof.
  intros Hs Hh. unfold main. unfold bind at 1. rewrite Hs.
  unfold bind at 1. rewrite (file_of_nil _ _ _ Hh). reflexivity.
Qed.

(** From the file and the environment to the provider: whatever body the
    echo service sends, under whatever status code, is the content of the
    update of a managed record. *)
Theorem echo_body_becomes_record_content st file w f code body w' api :
  os_Open (strings_Join [dataPath st; "config.json"] "/") (world st) = (Ok file, w) ->
  json_Decode file = Ok (Some f) ->
  RecordID f <> "" ->
  os_Getenv "CF_API_KEY" w <> "" ->
  os_Getenv "CF_EMAIL" w <> "" ->
  http_Get echo_url w = (Ok (mkResponse code (mkBody body None)), w') ->
  cloudflare_New (os_Getenv "CF_API_KEY" w) (os_Getenv "CF_EMAIL" w) = Ok api ->
  exists r,
    events_since st (main st).2
    = EvHttpGet echo_url (Ok (mkResponse code (mkBody body None)))
      :: EvUpdate (ZoneIdentifier (ZoneID f))
                  (mkUpdate (RecordID f) "A" (CNAME f) body 120
                            (Some "Automatically set by gddns") (Some false)) r
      :: match r with
         | Ok _ => [line "DNS record updated successfully."]
         | Err _ => []
         end.
Proof.
  intros Ho Hd Hid Hk He Hg Hn.
  pose proof (setup_ok _ _ _ _ _ _ _ _ Ho Hd Hk He Hg Hn) as Hs.
  destruct (main_managed _ _ _ _ f
              (mkEnv (os_Getenv "CF_EMAIL" w) (os_Getenv "CF_API_KEY" w) body) Hs)
    as (evs & Hrun & Hout & _); [apply lookup_fresh|exact Hid|].
  cbn [out] in Hout. rewrite <- app_assoc in Hout.
  rewrite (events_since_app _ _ _ Hout).
  inversion Hrun as [p e Hp He' Hr|p r Hp He' Hr]; subst;
    [exists (Err e)|exists (Ok r)]; reflexivity.
Qed.

(** The outcome of a managed run is the provider's answer to the one
    update: success ends the run normally, an error ends it fatally; in both
    cases the shared configuration is what it was. *)
Theorem managed_run_outcome st st1 api config f env rc p r :
  setup st = (Ret (Ok (api, config)), st1) ->
  heap st1 !! config = Some (mkConfig (Some f) env) ->
  RecordID f <> "" ->
  updates (events_since st1 (main st).2) = [EvUpdate rc p r] ->
  (main st).1 = match r with
                | Ok _ => Ret tt
                | Err e => Fatal ("Error updating DNS record: " +:+ e)
                end
  /\ heap (main st).2 = heap st1.
Proof.
  intros Hs Hh Hid Hup.
  destruct (main_managed _ _ _ _ _ _ Hs Hh Hid) as (evs & Hrun & Hout & Hfinal).
  rewrite (events_since_app _ _ _ Hout) in Hup.
  inversion Hrun; subst; cbn in Hup; simplify_eq; split; auto.
Qed.

(** When the listing itself fails, the run ends fatally with the provider's
    error; no record is created, nothing is written, the shared configuration
    is what it was. *)
Theorem listing_error_stops_run st st1 api config f env rc p e :
  setup st = (Ret (Ok (api, config)), st1) ->
  heap st1 !! config = Some (mkConfig (Some f) env) ->
  RecordID f = "" ->
  let evs := events_since st1 (main st).2 in
  lists evs = [EvList rc p (Err e)] ->
  (main st).1 = Fatal ("Error veryifying dns state: " +:+ e)
  /\ creates evs = [] /\ writes evs = []
  /\ heap (main st).2 = heap st1.
Proof.
  intros Hs Hh Hid evs Hl.
  destruct (main_unmanaged _ _ _ _ _ _ Hs Hh Hid) as (evs' & id & Hrun & Hout & Hfinal & _).
  subst evs. rewrite (events_since_app _ _ _ Hout) in *.
  inversion Hrun; subst; cbn in Hl; simplify_eq.
  rewrite Hfinal. cbn [config_after]. rewrite list_insert_id by exact Hh.
  repeat split; reflexivity.
Qed.

(** When the create of the A record fails, it is the only create of the
    run: the SRV record is not attempted, nothing is written, and the shared
    configuration is what it was. *)
Theorem a_failure_stops_run st st1 api config f env rc pa e rest :
  setup st = (Ret (Ok (api, config)), st1) ->
  heap st1 !! config = Some (mkConfig (Some f) env) ->
  RecordID f = "" ->
  let evs := events_since st1 (main st).2 in
  creates evs = EvCreate rc pa (Err e) :: rest ->
  rest = [] /\ cType pa = "A"
  /\ (main st).1 = Fatal ("Error creating records: " +:+ e)
  /\ writes evs = []
  /\ heap (main st).2 = heap st1.
Proof.
  intros Hs Hh Hid evs Hc.
  destruct (main_unmanaged _ _ _ _ _ _ Hs Hh Hid) as (evs' & id & Hrun & Hout & Hfinal & _).
  subst evs. rewrite (events_since_app _ _ _ Hout) in *.
  inversion Hrun; subst; cbn in Hc; simplify_eq.
  rewrite Hfinal. cbn [config_after]. rewrite list_insert_id by exact Hh.
  repeat split; reflexivity.
Qed.

(** Nothing is created before the conflict check has answered with a count
    of zero, and nothing is written before both creates have succeeded. *)
Theorem each_step_waits_for_the_one_before st st1 api config f env :
  setup st = (Ret (Ok (api, config)), st1) ->
  heap st1 !! config = Some (mkConfig (Some f) env) ->
  RecordID f = "" ->
  let evs := events_since st1 (main st).2 in
  (creates evs <> [] ->
     exists rc p recs ri, lists evs = [EvList rc p (Ok (recs, ri))] /\ Count ri = 0%Z)
  /\ (writes evs <> [] ->
        exists rc pa a ps s, creates evs = [EvCreate rc pa (Ok a); EvCreate rc ps (Ok s)]).
Proof.
  intros Hs Hh Hid evs.
  destruct (main_unmanaged _ _ _ _ _ _ Hs Hh Hid) as (evs' & id & Hrun & Hout & _ & _).
  subst evs. rewrite (events_since_app _ _ _ Hout).
  inversion Hrun; subst; cbn; split; intros Hne; try contradiction;
    try (eexists _, _, _, _; split; [reflexivity|assumption]);
    eexists _, _, _, _, _; reflexivity.
Qed.
End Paths.

(** ** Every run of [main], and of the whole program *)

Section Whole.
Context {W : Type} {RT : Runtime W}.
Implicit Types (st : state W) (config : ptr) (f : CfgFile) (env : EnvT).

(** The events of a run of [main]: those of [setup], then nothing, or a
    managed run, or an unmanaged run. *)
Lemma main_split st :
  exists pre post,
    out (main st).2 = out st ++ pre ++ post
    /\ (pre = [] \/ exists g, pre = [EvHttpGet echo_url g])
    /\ (post = []
        \/ (exists f env, managed_run f env post (main st).1)
        \/ (exists f env id, unmanaged_run f env (dataPath st) post (main st).1 id)).
Proof.
  destruct (setup st) as [r st1] eqn:Hs.
  destruct (setup_inv _ _ _ Hs) as (Hp & _ & (pre & Hout & Hpre) & Hok).
  exists pre.
  assert (Hstop : forall o, main st = (o, st1) ->
            exists post, out (main st).2 = out st ++ pre ++ post
              /\ (pre = [] \/ exists g, pre = [EvHttpGet echo_url g])
              /\ (post = []
                  \/ (exists f env, managed_run f env post (main st).1)
                  \/ (exists f env id,
                         unmanaged_run f env (dataPath st) post (main st).1 id))).
  { intros o Hm. exists []. rewrite Hm. cbn [snd]. rewrite app_nil_r.
    split; [exact Hout|]. split; [exact Hpre|left; reflexivity]. }
  destruct r as [[[api config]|e]|msg|msg];
    try (eapply Hstop; unfold main, bind; rewrite Hs; reflexivity).
  destruct (Hok api config eq_refl) as (decoded & code & ip & Hc & Hh & _).
  assert (Hl : heap st1 !! config = Some (mkConfig decoded
            (mkEnv (os_Getenv "CF_EMAIL"
                      (os_Open (strings_Join [dataPath st; "config.json"] "/") (world st)).2)
                   (os_Getenv "CF_API_KEY"
                      (os_Open (strings_Join [dataPath st; "config.json"] "/") (world st)).2)
                   ip))).
  { rewrite Hh, Hc. apply lookup_fresh. }
  destruct decoded as [f|].
  2:{ eapply Hstop. eapply nil_configuration_panics; eassumption. }
  destruct (String.eqb_spec (RecordID f) "") as [Hid|Hid].
  - destruct (main_unmanaged _ _ _ _ _ _ Hs Hl Hid) as (evs & id & Hrun & Hout' & _ & _).
    exists evs. split.
    + rewrite Hout', Hout, app_assoc. reflexivity.
    + split; [exact Hpre|]. right. right. rewrite <- Hp. eauto.
  - destruct (main_managed _ _ _ _ _ _ Hs Hl Hid) as (evs & Hrun & Hout' & _).
    exists evs. split.
    + rewrite Hout', Hout, app_assoc. reflexivity.
    + split; [exact Hpre|]. right. left. eauto.
Qed.

(** Whatever the surroundings do, one run of [main] asks the echo service at
    most once, lists at most once, updates at most once, creates at most
    twice and writes at most once; and a run that updates does none of the
    other three. *)
Theorem main_is_bounded st :
  let evs := events_since st (main st).2 in
  length (List.filter (fun e => match e with EvHttpGet _ _ => true | _ => false end) evs) <= 1
  /\ length (lists evs) <= 1
  /\ length (updates evs) <= 1
  /\ length (creates evs) <= 2
  /\ length (writes evs) <= 1
  /\ (updates evs <> [] -> lists evs = [] /\ creates evs = [] /\ writes evs = []).
Proof.
  destruct (main_split st) as (pre & post & Hout & Hpre & Hpost). cbv zeta.
  rewrite (events_since_app _ _ _ Hout).
  unfold lists, updates, creates, writes. rewrite !List.filter_app, !length_app.
  destruct Hpre as [->|[g ->]];
    (destruct Hpost as [->|[(f & env & Hrun)|(f & env & id & Hrun)]];
     [|inversion Hrun; subst|inversion Hrun; subst]);
    cbn; repeat split; try lia; try reflexivity; congruence.
Qed.

(** A first run ends normally only when the state file was written without
    error, holding the id that the create of the A record returned. *)
Theorem normal_exit_means_saved st st1 api config f env :
  setup st = (Ret (Ok (api, config)), st1) ->
  heap st1 !! config = Some (mkConfig (Some f) env) ->
  RecordID f = "" ->
  (main st).1 = Ret tt ->
  let evs := events_since st1 (main st).2 in
  exists rc pa a ps s,
    creates evs = [EvCreate rc pa (Ok a); EvCreate rc ps (Ok s)]
    /\ cType pa = "A"
    /\ writes evs =
         [EvWriteFile
            (strings_Join [dataPath st1; "config.json"] "/")
            (render json_quote "" "  " 0
               (json_of_CfgFile (mkCfgFile (Domain f) (CNAME f) (ZoneID f) (ID a))))
            384 None]
    /\ heap (main st).2 !! config
       = Some (mkConfig (Some (mkCfgFile (Domain f) (CNAME f) (ZoneID f) (ID a))) env).
Proof.
  intros Hs Hh Hid Hret evs.
  destruct (main_unmanaged _ _ _ _ _ _ Hs Hh Hid) as (evs' & id & Hrun & Hout & Hfinal & _).
  assert (Hlt : config < length (heap st1)) by (eapply lookup_lt_Some; exact Hh).
  subst evs. rewrite (events_since_app _ _ _ Hout).
  rewrite Hret in Hrun. inversion Hrun; subst.
  rewrite Hfinal. cbn [config_after].
  eexists _, _, _, _, _. repeat split; try reflexivity.
  apply list_lookup_insert_eq. exact Hlt.
Qed.


(** [init], in one piece. *)
Lemma init_run st :
  let dir := if String.eqb (setDevMode st) "false" then "/etc/gddns" else "." in
  let a := godotenv_Load (strings_Join [dir; ".env.example"] "/") (world st) in
  init st =
    (match a.1 with
     | Some e => Fatal ("Error loading .env.example file: " +:+ e)
     | None => Ret tt
     end,
     mkState a.2 (setDevMode st) dir (heap st)
             (out st ++ [EvStdout ("Using data path: " +:+ dir +:+ newline)])).
Proof.
  cbv zeta. unfold init, bind, get_setDevMode, get_dataPath, set_dataPath, fmt_Printf,
    log, call, log_Fatal, ret.
  destruct (String.eqb (setDevMode st) "false"); cbn;
    destruct (godotenv_Load _ (world st)) as [[e|] w]; reflexivity.
Qed.


(** The data path is chosen by the build setting alone: every file the
    program writes is config.json under /etc/gddns when [setDevMode] is the
    string false and under the current directory for every other value, with
    mode 0600. *)
Theorem program_writes_under_data_path st e :
  In e (writes (events_since st (program st).2)) ->
  exists text r,
    e = EvWriteFile (if String.eqb (setDevMode st) "false"
                     then "/etc/gddns/config.json" else "./config.json")
                    text 384 r.
Proof.
  unfold program, bind. rewrite init_run. cbv zeta.
  set (dir := if String.eqb (setDevMode st) "false" then "/etc/gddns" else ".").
  destruct (godotenv_Load _ (world st)) as [[err|] w]; cbn [fst snd].
  { erewrite events_since_app by reflexivity. intros []. }
  match goal with |- context [main ?s] => set (st0 := s) end.
  destruct (main_split st0) as (pre & post & Hout & Hpre & Hpost).
  subst st0. cbn [out dataPath] in *. rewrite <- app_assoc in Hout.
  rewrite (events_since_app _ _ _ Hout).
  unfold writes. rewrite !List.filter_app. cbn [List.filter is_write app].
  assert (Hq : List.filter is_write pre = []) by (destruct Hpre as [->|[g ->]]; reflexivity).
  rewrite Hq. cbn [app].
  destruct Hpost as [->|[(f & env & Hrun)|(f & env & id & Hrun)]].
  - intros [].
  - inversion Hrun; subst; intros [].
  - inversion Hrun; subst; cbn; intros Hin; try contradiction;
      destruct Hin as [<-|[]]; unfold config_path, dir;
      destruct (String.eqb (setDevMode st) "false"); eexists _, _; reflexivity.
Qed.
End Whole.

(** ** What is asked of the provider *)

Section Requests.
Context {W : Type} {RT : Runtime W}.
Implicit Types (st : state W) (config : ptr) (f : CfgFile) (env : EnvT).

(** Every create of a first run goes to the zone of the configuration,
    under its label and unproxied.  It is either the A record, with the
    resolved address and TTL 300, or the SRV record, with TTL 900, for the
    service _minecraft over _tcp on port 25565, named and aimed at the label
    joined to the domain by a dot. *)
Theorem create_requests st st1 api config f env rc p r :
  setup st = (Ret (Ok (api, config)), st1) ->
  heap st1 !! config = Some (mkConfig (Some f) env) ->
  RecordID f = "" ->
  In (EvCreate rc p r) (events_since st1 (main st).2) ->
  rc = ZoneIdentifier (ZoneID f) /\ cName p = CNAME f /\ cProxied p = Some false
  /\ ((cType p = "A" /\ cContent p = SysIP env /\ cTTL p = 300%Z /\ cData p = None)
      \/ (cType p = "SRV" /\ cContent p = "" /\ cTTL p = 900%Z
          /\ exists d,
               cData p = Some d
               /\ d !! "service" = Some (VStr "_minecraft")
               /\ d !! "proto" = Some (VStr "_tcp")
               /\ d !! "name" = Some (VStr (CNAME f +:+ "." +:+ Domain f))
               /\ d !! "target" = Some (VStr (CNAME f +:+ "." +:+ Domain f))
               /\ d !! "priority" = Some (VInt 0)
               /\ d !! "weight" = Some (VInt 5)
               /\ d !! "port" = Some (VInt 25565)
               /\ size d = 7)).
Proof.
  intros Hs Hh Hid Hin.
  destruct (main_unmanaged _ _ _ _ _ _ Hs Hh Hid) as (evs & id & Hrun & Hout & _ & _).
  rewrite (events_since_app _ _ _ Hout) in Hin.
  inversion Hrun; subst; cbn in Hin;
    repeat (destruct Hin as [Hin|Hin]; [try discriminate Hin|]);
    try contradiction;
    injection Hin as <- <- <-; do 3 (split; [reflexivity|]);
    first
      [ left; repeat split; reflexivity
      | right; do 3 (split; [reflexivity|]); eexists; split; [reflexivity|];
        unfold srv_data, strings_Join; cbn [String.concat];
        repeat split; vm_compute; reflexivity ].
Qed.

(** The update of a managed record is asked for in the same words whatever
    the state of the host, the provider and the clock: two runs over the
    same configuration send the same request. *)
Theorem update_request_is_repeatable st st' api config config' c :
  heap st !! config = Some c ->
  heap st' !! config' = Some c ->
  cfgFile c <> None ->
  exists rc p r r',
    events_since st (updateRecord api config st).2 = [EvUpdate rc p r]
    /\ events_since st' (updateRecord api config' st').2 = [EvUpdate rc p r']
    /\ heap (updateRecord api config st).2 = heap st.
Proof.
  intros Hh Hh' Hf. destruct c as [[f|] env]; [|contradiction].
  rewrite (updateRecord_run api st config f env Hh).
  rewrite (updateRecord_run api st' config' f env Hh'). cbv zeta. cbn [snd].
  eexists _, _, _, _. split; [apply events_since_app; reflexivity|].
  split; [apply events_since_app; reflexivity|reflexivity].
Qed.
End Requests.

(** ** Runs on the reference runtime *)

Module Runs_on_reference.
Import Sim.

Example first_run :
  program (boot fresh)
  = (Ret tt,
     mkState
       (mkMachine (env fresh)
                (("./config.json",
                  render quote "" "  " 0
                         (json_of_CfgFile (mkCfgFile "example.com" "home" "z1" "rec0")))
                   :: files fresh)
                false (echo fresh) []
                [("z1", mkRecord "rec0" "A" "home" "203.0.113.7");
                 ("z1", mkRecord "rec1" "SRV" "home" "")]
                [] 2)
       "" "."
       [mkConfig (Some (mkCfgFile "example.com" "home" "z1" "rec0")) (creds "203.0.113.7")]
       [EvStdout ("Using data path: ." +:+ newline);
        EvHttpGet "https://api.ipify.org?format=text" (Ok (plain "203.0.113.7"));
        line "No DNS record ID was set...";
        EvList (ZoneIdentifier "z1") (mkList "A" "home") (Ok ([], mkResultInfo 0));
        line "new DNS record supplied, assuming new DNS record...";
        EvCreate (ZoneIdentifier "z1") (a_record unmanaged (creds "203.0.113.7") "t1")
                 (Ok (mkRecord "rec0" "A" "home" "203.0.113.7"));
        EvCreate (ZoneIdentifier "z1") (srv_record unmanaged "t2")
                 (Ok (mkRecord "rec1" "SRV" "home" ""));
        line "DNS record created successfully...";
        EvWriteFile "./config.json"
                    (render quote "" "  " 0
                            (json_of_CfgFile (mkCfgFile "example.com" "home" "z1" "rec0")))
                    384 None;
        line "DNS record saved successfully."]).
Proof. vm_compute. reflexivity. Qed.

Example later_run :
  (program (boot settled)).1 = Ret tt
  /\ events_since (ready settled) (program (boot settled)).2
     = [EvUpdate (ZoneIdentifier "z1")
                 (mkUpdate "rec123" "A" "home" "198.51.100.2" 120
                           (Some "Automatically set by gddns") (Some false))
                 (Ok (mkRecord "rec123" "A" "home" "198.51.100.2"));
        line "DNS record updated successfully."].
Proof. split; vm_compute; reflexivity. Qed.

Example name_taken :
  (program (boot taken)).1 = Fatal "Error veryifying dns state: record already exists".
Proof. vm_compute. reflexivity. Qed.

Example disk_locked :
  (program (boot locked)).1
  = Fatal "Error saving config: open ./config.json: read-only file system"
  /\ length (records (world (program (boot locked)).2)) = 2.
Proof. split; vm_compute; reflexivity. Qed.

Example srv_refused :
  (program (boot no_srv)).1 = Fatal "Error creating records: record type SRV refused"
  /\ map snd (records (world (program (boot no_srv)).2))
     = [mkRecord "rec0" "A" "home" "203.0.113.7"]
  /\ files (world (program (boot no_srv)).2) = files no_srv.
Proof. repeat split; vm_compute; reflexivity. Qed.

(** A configuration file without any of the four fields leaves the embedded
    pointer nil, and the first field access of [main] panics. *)
Example blank_configuration :
  (program (boot blank)).1 = Panic nil_dereference
  /\ events_since (ready blank) (program (boot blank)).2 = [].
Proof. split; vm_compute; reflexivity. Qed.

(** The text of a configuration file. *)
Example config_file_text :
  render quote "" "  " 0 (json_of_CfgFile unmanaged)
  = String.concat newline
      ["{";
       "  " +:+ quote "domain" +:+ ": " +:+ quote "example.com" +:+ ",";
       "  " +:+ quote "cname" +:+ ": " +:+ quote "home" +:+ ",";
       "  " +:+ quote "zone_id" +:+ ": " +:+ quote "z1" +:+ ",";
       "  " +:+ quote "record_id" +:+ ": " +:+ quote "";
       "}"].
Proof. vm_compute. reflexivity. Qed.

Example decode_what_was_saved :
  decode (render quote "" "  " 0 (json_of_CfgFile managed)) = Ok (Some managed).
Proof. vm_compute. reflexivity. Qed.
End Runs_on_reference.

(** ** The properties at work on the reference runtime *)

Module Witness.
Import Sim.

(** A later run: the provider holds the record, the update changes its
    content to the new address, and nothing else happens. *)
Lemma managed_run_updates_once_witness :
  (let evs := events_since (ready settled) (main (started settled)).2 in
   let rc := ZoneIdentifier "z1" in
   let p := mkUpdate "rec123" "A" "home" "198.51.100.2" 120
                     (Some "Automatically set by gddns") (Some false) in
   let call := UpdateDNSRecord api rc p (world (ready settled)) in
   updates evs = [EvUpdate rc p (Ok (mkRecord "rec123" "A" "home" "198.51.100.2"))]
   /\ world (main (started settled)).2 = call.2
   /\ (main (started settled)).1 = Ret tt
   /\ uType p = "A" /\ uTTL p = 120%Z /\ uProxied p = Some false
   /\ creates evs = []
   /\ lists evs = []
   /\ writes evs = [])
  /\ records (world (ready settled)) = [("z1", mkRecord "rec123" "A" "home" "203.0.113.7")]
  /\ records (world (main (started settled)).2)
     = [("z1", mkRecord "rec123" "A" "home" "198.51.100.2")].
Proof.
  split.
  - refine (managed_run_updates_once (started settled) (ready settled) api 0
             managed (creds "198.51.100.2") _ _ _).
    + vm_compute. reflexivity.
    + vm_compute. reflexivity.
    + vm_compute. discriminate.
  - split; vm_compute; reflexivity.
Defined.

(** A first run against an empty zone: the provider makes the A record,
    then the SRV record; against a provider that refuses A records the SRV
    record is not asked for. *)
Lemma unmanaged_run_creates_in_order_witness :
  (let evs := events_since (ready fresh) (main (started fresh)).2 in
   let rc := ZoneIdentifier "z1" in
   lists evs = [EvList rc (mkList "A" "home") (Ok ([], mkResultInfo 0))]
   /\ creates evs
      = [EvCreate rc (a_record unmanaged (creds "203.0.113.7") "t1")
                  (Ok (mkRecord "rec0" "A" "home" "203.0.113.7"));
         EvCreate rc (srv_record unmanaged "t2") (Ok (mkRecord "rec1" "SRV" "home" ""))]
   /\ world (main (started fresh)).2
      = mkMachine (env fresh)
                  (("./config.json",
                    render quote "" "  " 0
                      (json_of_CfgFile (mkCfgFile "example.com" "home" "z1" "rec0")))
                     :: files fresh)
                  false (echo fresh) []
                  [("z1", mkRecord "rec0" "A" "home" "203.0.113.7");
                   ("z1", mkRecord "rec1" "SRV" "home" "")]
                  [] 2)
  /\ (let evs := events_since (ready Cases.no_a) (main (started Cases.no_a)).2 in
      let rc := ZoneIdentifier "z1" in
      lists evs = [EvList rc (mkList "A" "home") (Ok ([], mkResultInfo 0))]
      /\ creates evs
         = [EvCreate rc (a_record unmanaged (creds "203.0.113.7") "t1")
                     (Err "record type A refused")]
      /\ records (world (main (started Cases.no_a)).2) = []
         /\ (main (started Cases.no_a)).1
            = Fatal ("Error creating records: " +:+ "record type A refused")).
Proof.
  split.
  - refine (unmanaged_run_creates_in_order (started fresh) (ready fresh) api 0
             unmanaged (creds "203.0.113.7") [] (mkResultInfo 0) _ _ _ _ _).
    + vm_compute. reflexivity.
    + vm_compute. reflexivity.
    + reflexivity.
    + vm_compute. reflexivity.
    + reflexivity.
  - pose proof (unmanaged_run_creates_in_order (started Cases.no_a) (ready Cases.no_a) api 0
                  unmanaged (creds "203.0.113.7") [] (mkResultInfo 0)) as H.
    cbv zeta in H.
    destruct H as (Hl & Hc & Hw); try (vm_compute; reflexivity).
    cbv zeta. split; [exact Hl|]. split; [exact Hc|].
    destruct Hw as [Hw Ho]. split; [rewrite Hw; vm_compute; reflexivity|exact Ho].
Defined.

(** A first run that finds the name taken. *)
Lemma conflict_stops_run_witness :
  let evs := events_since (ready taken) (main (started taken)).2 in
  creates evs = []
  /\ writes evs = []
  /\ (main (started taken)).1 = Fatal "Error veryifying dns state: record already exists".
Proof.
  apply (conflict_stops_run (started taken) (ready taken) api 0
           unmanaged (creds "203.0.113.7")
           [mkRecord "other" "A" "home" "192.0.2.1"] (mkResultInfo 1)).
  - vm_compute. reflexivity.
  - vm_compute. reflexivity.
  - reflexivity.
  - vm_compute. reflexivity.
  - vm_compute. discriminate.
Defined.

(** A first run against a provider that refuses the SRV record. *)
Lemma srv_failure_keeps_local_state_witness :
  let evs := events_since (ready no_srv) (main (started no_srv)).2 in
  (main (started no_srv)).1 = Fatal ("Error creating records: " +:+ "record type SRV refused")
  /\ heap (main (started no_srv)).2 = heap (ready no_srv)
  /\ (exists f', heap (main (started no_srv)).2 !! 0
                   = Some (mkConfig (Some f') (creds "203.0.113.7"))
                 /\ RecordID f' = "")
  /\ writes evs = [].
Proof.
  eapply (srv_failure_keeps_local_state (started no_srv) (ready no_srv) api 0
            unmanaged (creds "203.0.113.7")).
  - vm_compute. reflexivity.
  - vm_compute. reflexivity.
  - reflexivity.
  - vm_compute. reflexivity.
Defined.

(** A first run in which everything succeeds: the file holds the id of the
    A record.  The same run on a disk that cannot be written: both records
    exist, the run is fatal and the file is what it was. *)
Lemma both_creates_then_save_witness :
  (let evs := events_since (ready fresh) (main (started fresh)).2 in
   let rc := ZoneIdentifier "z1" in
   let text := render json_quote "" "  " 0
                 (JObject [("domain", JString "example.com");
                           ("cname", JString "home");
                           ("zone_id", JString "z1");
                           ("record_id", JString "rec0")]) in
   creates evs
   = [EvCreate rc (a_record unmanaged (creds "203.0.113.7") "t1")
               (Ok (mkRecord "rec0" "A" "home" "203.0.113.7"));
      EvCreate rc (srv_record unmanaged "t2") (Ok (mkRecord "rec1" "SRV" "home" ""))]
   /\ heap (main (started fresh)).2 !! 0 =
        Some (mkConfig (Some (mkCfgFile "example.com" "home" "z1" "rec0"))
                       (creds "203.0.113.7"))
   /\ writes evs = [EvWriteFile "./config.json" text 384 None]
   /\ world (main (started fresh)).2
      = mkMachine (env fresh) (("./config.json", text) :: files fresh)
                  false (echo fresh) []
                  [("z1", mkRecord "rec0" "A" "home" "203.0.113.7");
                   ("z1", mkRecord "rec1" "SRV" "home" "")]
                  [] 2
   /\ (main (started fresh)).1 = Ret tt)
  /\ (let evs := events_since (ready locked) (main (started locked)).2 in
      let rc := ZoneIdentifier "z1" in
      let text := render json_quote "" "  " 0
                    (JObject [("domain", JString "example.com");
                              ("cname", JString "home");
                              ("zone_id", JString "z1");
                              ("record_id", JString "rec0")]) in
      creates evs
      = [EvCreate rc (a_record unmanaged (creds "203.0.113.7") "t1")
                  (Ok (mkRecord "rec0" "A" "home" "203.0.113.7"));
         EvCreate rc (srv_record unmanaged "t2") (Ok (mkRecord "rec1" "SRV" "home" ""))]
      /\ heap (main (started locked)).2 !! 0 =
           Some (mkConfig (Some (mkCfgFile "example.com" "home" "z1" "rec0"))
                          (creds "203.0.113.7"))
      /\ writes evs
         = [EvWriteFile "./config.json" text 384
                        (Some "open ./config.json: read-only file system")]
      /\ world (main (started locked)).2
         = mkMachine (env locked) (files locked) true (echo locked) []
                     [("z1", mkRecord "rec0" "A" "home" "203.0.113.7");
                      ("z1", mkRecord "rec1" "SRV" "home" "")]
                     [] 2
      /\ (main (started locked)).1
         = Fatal ("Error saving config: " +:+ "open ./config.json: read-only file system")).
Proof.
  split.
  - refine (both_creates_then_save (started fresh) (ready fresh) api 0
             unmanaged (creds "203.0.113.7") [] (mkResultInfo 0)
             (mkRecord "rec0" "A" "home" "203.0.113.7")
             (mkRecord "rec1" "SRV" "home" "") _ _ _ _ _ _ _);
      vm_compute; reflexivity.
  - refine (both_creates_then_save (started locked) (ready locked) api 0
             unmanaged (creds "203.0.113.7") [] (mkResultInfo 0)
             (mkRecord "rec0" "A" "home" "203.0.113.7")
             (mkRecord "rec1" "SRV" "home" "") _ _ _ _ _ _ _);
      vm_compute; reflexivity.
Defined.


(** The scenario of the first run, on the reference runtime: the provider
    returns "rec0" for the A record, and that is the id in the file. *)
Lemma first_run_scenario_witness :
  let evs := events_since (ready fresh) (main (started fresh)).2 in
  let rc := ZoneIdentifier "z1" in
  let pa := mkCreate "A" "home" "203.0.113.7" None 300 (Some false)
                     "Automatically set by gddns at t1" in
  let ps := mkCreate "SRV" "home" "" (Some (srv_data "home.example.com")) 900 (Some false)
                     "Automatically set by gddns at t2" in
  let text := render json_quote "" "  " 0
                (JObject [("domain", JString "example.com");
                          ("cname", JString "home");
                          ("zone_id", JString "z1");
                          ("record_id", JString "rec0")]) in
  creates evs = [EvCreate rc pa (Ok (mkRecord "rec0" "A" "home" "203.0.113.7"));
                 EvCreate rc ps (Ok (mkRecord "rec1" "SRV" "home" ""))]
  /\ srv_data "home.example.com" !! "target" = Some (VStr "home.example.com")
  /\ srv_data "home.example.com" !! "port" = Some (VInt 25565)
  /\ srv_data "home.example.com" !! "priority" = Some (VInt 0)
  /\ srv_data "home.example.com" !! "weight" = Some (VInt 5)
  /\ writes evs = [EvWriteFile "./config.json" text 384 None]
  /\ world (main (started fresh)).2
     = mkMachine (env fresh) (("./config.json", text) :: files fresh)
                 false (echo fresh) []
                 [("z1", mkRecord "rec0" "A" "home" "203.0.113.7");
                  ("z1", mkRecord "rec1" "SRV" "home" "")]
                 [] 2
  /\ heap (main (started fresh)).2 !! 0 =
       Some (mkConfig (Some (mkCfgFile "example.com" "home" "z1" "rec0"))
                      (mkEnv "ops@example.com" "key" "203.0.113.7")).
Proof.
  refine (first_run_scenario (started fresh) (ready fresh) api 0
           "ops@example.com" "key" [] (mkResultInfo 0) _ _ _ _);
    vm_compute; reflexivity.
Defined.

(** Saving the configuration of the first run once the id is known. *)
Lemma saveConfig_writes_four_fields_witness :
  let st := (main (started fresh)).2 in
  let evs := events_since st (saveConfig 0 st).2 in
  written evs =
    [(strings_Join [dataPath st; "config.json"] "/",
      render json_quote "" "  " 0
        (JObject [("domain", JString "example.com");
                  ("cname", JString "home");
                  ("zone_id", JString "z1");
                  ("record_id", JString "rec0")]),
      384%Z)]
  /\ length evs = 1
  /\ forall st' env',
       heap st' !! 0 = Some (mkConfig (Some (mkCfgFile "example.com" "home" "z1" "rec0")) env') ->
       dataPath st' = dataPath st ->
       written (events_since st' (saveConfig 0 st').2) = written evs.
Proof.
  apply (saveConfig_writes_four_fields (main (started fresh)).2 0
           (mkCfgFile "example.com" "home" "z1" "rec0") (creds "203.0.113.7")).
  vm_compute. reflexivity.
Defined.


(** The echo service answers 503 with an error page: the page is the
    address. *)
Lemma getPublicIP_ignores_status_witness :
  (getPublicIP (boot (host unmanaged unavailable [] [] false))).1
    = Ret ("upstream connect error", None).
Proof.
  apply (getPublicIP_ignores_status
           (boot (host unmanaged unavailable [] [] false)) 503 "upstream connect error"
           (host unmanaged unavailable [] [] false)).
  reflexivity.
Defined.
End Witness.

(** ** The further properties at work on the reference runtime *)

Module More_witness.
Import Sim Cases.

Lemma setup_hands_over_witness :
  exists c code,
    heap (ready fresh) = heap (started fresh) ++ [c]
    /\ heap (ready fresh) !! 0 = Some c
    /\ CFApiKey (Env c) <> "" /\ CFEmail (Env c) <> ""
    /\ cloudflare_New (CFApiKey (Env c)) (CFEmail (Env c)) = Ok api
    /\ events_since (started fresh) (ready fresh)
       = [EvHttpGet echo_url (Ok (mkResponse code (mkBody (SysIP (Env c)) None)))].
Proof.
  apply (setup_hands_over (started fresh) (ready fresh) api 0).
  vm_compute. reflexivity.
Defined.

Lemma missing_file_is_fatal_witness :
  (main (started no_file)).1
  = Fatal ("Setup failed: error loading configuration: "
           +:+ "open ./config.json: no such file or directory")
  /\ events_since (started no_file) (main (started no_file)).2 = []
  /\ heap (main (started no_file)).2 = heap (started no_file).
Proof.
  apply (missing_file_is_fatal (started no_file)
           "open ./config.json: no such file or directory" no_file).
  vm_compute. reflexivity.
Defined.

Lemma malformed_file_is_fatal_witness :
  (main (started garbled)).1
  = Fatal ("Setup failed: error loading configuration: " +:+ "invalid JSON configuration")
  /\ events_since (started garbled) (main (started garbled)).2 = [].
Proof.
  apply (malformed_file_is_fatal (started garbled) "domain=example.com"
           "invalid JSON configuration" garbled).
  - vm_compute. reflexivity.
  - vm_compute. reflexivity.
Defined.

Lemma missing_credentials_are_fatal_witness :
  (events_since (started no_key) (main (started no_key)).2 = []
   /\ (main (started no_key)).1
      = Fatal "Cloudflare API credentials are not set in environment variables.")
  /\ (events_since (started bare) (main (started bare)).2 = []
      /\ (main (started bare)).1
         = Fatal ("Setup failed: error loading configuration: "
                  +:+ "open ./config.json: no such file or directory")).
Proof.
  split.
  - refine (missing_credentials_are_fatal (started no_key) _).
    left. vm_compute. reflexivity.
  - refine (missing_credentials_are_fatal (started bare) _).
    left. vm_compute. reflexivity.
Defined.

Lemma unreachable_echo_is_fatal_witness :
  (main (started echo_down)).1
  = Fatal ("Error getting public IP: " +:+ "dial tcp: no route to host")
  /\ events_since (started echo_down) (main (started echo_down)).2
     = [EvHttpGet echo_url (Err "dial tcp: no route to host")].
Proof.
  apply (unreachable_echo_is_fatal (started echo_down) (on_disk managed)
           (Some managed) echo_down "dial tcp: no route to host" echo_down).
  - vm_compute. reflexivity.
  - vm_compute. reflexivity.
  - vm_compute. discriminate.
  - vm_compute. discriminate.
  - vm_compute. reflexivity.
Defined.

Lemma truncated_body_is_fatal_witness :
  (main (started cut_off)).1 = Fatal ("Error getting public IP: " +:+ "unexpected EOF")
  /\ updates (events_since (started cut_off) (main (started cut_off)).2) = []
  /\ creates (events_since (started cut_off) (main (started cut_off)).2) = []
  /\ lists (events_since (started cut_off) (main (started cut_off)).2) = [].
Proof.
  apply (truncated_body_is_fatal (started cut_off) (on_disk managed)
           (Some managed) cut_off 200 "198.51" "unexpected EOF" cut_off).
  - vm_compute. reflexivity.
  - vm_compute. reflexivity.
  - vm_compute. discriminate.
  - vm_compute. discriminate.
  - vm_compute. reflexivity.
Defined.

Lemma nil_configuration_panics_witness :
  main (started blank) = (Panic nil_dereference, ready blank).
Proof.
  apply (nil_configuration_panics (started blank) (ready blank) api 0
           (creds "203.0.113.7")).
  - vm_compute. reflexivity.
  - vm_compute. reflexivity.
Defined.

Lemma echo_body_becomes_record_content_witness :
  exists r,
    events_since (started error_page) (main (started error_page)).2
    = EvHttpGet echo_url (Ok (mkResponse 503 (mkBody "upstream connect error" None)))
      :: EvUpdate (ZoneIdentifier "z1")
                  (mkUpdate "rec123" "A" "home" "upstream connect error" 120
                            (Some "Automatically set by gddns") (Some false)) r
      :: match r with
         | Ok _ => [line "DNS record updated successfully."]
         | Err _ => []
         end.
Proof.
  apply (echo_body_becomes_record_content (started error_page) (on_disk managed)
           error_page managed 503 "upstream connect error" error_page api).
  - vm_compute. reflexivity.
  - vm_compute. reflexivity.
  - vm_compute. discriminate.
  - vm_compute. discriminate.
  - vm_compute. discriminate.
  - vm_compute. reflexivity.
  - vm_compute. reflexivity.
Defined.

Lemma managed_run_outcome_witness :
  (main (started orphaned)).1
  = Fatal ("Error updating DNS record: " +:+ "record not found")
  /\ heap (main (started orphaned)).2 = heap (ready orphaned).
Proof.
  apply (managed_run_outcome (started orphaned) (ready orphaned) api 0 managed
           (creds "198.51.100.2") (ZoneIdentifier "z1")
           (mkUpdate "rec123" "A" "home" "198.51.100.2" 120
                     (Some "Automatically set by gddns") (Some false))
           (Err "record not found")).
  - vm_compute. reflexivity.
  - vm_compute. reflexivity.
  - vm_compute. discriminate.
  - vm_compute. reflexivity.
Defined.

Lemma listing_error_stops_run_witness :
  let evs := events_since (Outage.ready fresh)
                          (main (RT := Outage.runtime) (Outage.started fresh)).2 in
  (main (RT := Outage.runtime) (Outage.started fresh)).1
  = Fatal ("Error veryifying dns state: " +:+ Outage.refusal)
  /\ creates evs = [] /\ writes evs = []
  /\ heap (main (RT := Outage.runtime) (Outage.started fresh)).2 = heap (Outage.ready fresh).
Proof.
  apply (listing_error_stops_run (RT := Outage.runtime)
           (Outage.started fresh) (Outage.ready fresh) api 0 unmanaged
           (creds "203.0.113.7") (ZoneIdentifier "z1") (mkList "A" "home") Outage.refusal).
  - vm_compute. reflexivity.
  - vm_compute. reflexivity.
  - reflexivity.
  - vm_compute. reflexivity.
Defined.

Lemma a_failure_stops_run_witness :
  let evs := events_since (ready no_a) (main (started no_a)).2 in
  @nil event = [] /\ cType (a_record unmanaged (creds "203.0.113.7") "t1") = "A"
  /\ (main (started no_a)).1
     = Fatal ("Error creating records: " +:+ "record type A refused")
  /\ writes evs = []
  /\ heap (main (started no_a)).2 = heap (ready no_a).
Proof.
  apply (a_failure_stops_run (started no_a) (ready no_a) api 0 unmanaged
           (creds "203.0.113.7") (ZoneIdentifier "z1")
           (a_record unmanaged (creds "203.0.113.7") "t1") "record type A refused" []).
  - vm_compute. reflexivity.
  - vm_compute. reflexivity.
  - reflexivity.
  - vm_compute. reflexivity.
Defined.

Lemma each_step_waits_for_the_one_before_witness :
  let evs := events_since (ready fresh) (main (started fresh)).2 in
  (creates evs <> [] ->
     exists rc p recs ri, lists evs = [EvList rc p (Ok (recs, ri))] /\ Count ri = 0%Z)
  /\ (writes evs <> [] ->
        exists rc pa a ps s, creates evs = [EvCreate rc pa (Ok a); EvCreate rc ps (Ok s)]).
Proof.
  apply (each_step_waits_for_the_one_before (started fresh) (ready fresh) api 0
           unmanaged (creds "203.0.113.7")).
  - vm_compute. reflexivity.
  - vm_compute. reflexivity.
  - reflexivity.
Defined.

Lemma normal_exit_means_saved_witness :
  let evs := events_since (ready fresh) (main (started fresh)).2 in
  exists rc pa a ps s,
    creates evs = [EvCreate rc pa (Ok a); EvCreate rc ps (Ok s)]
    /\ cType pa = "A"
    /\ writes evs =
         [EvWriteFile
            (strings_Join [dataPath (ready fresh); "config.json"] "/")
            (render json_quote "" "  " 0
               (json_of_CfgFile (mkCfgFile "example.com" "home" "z1" (ID a))))
            384 None]
    /\ heap (main (started fresh)).2 !! 0
       = Some (mkConfig (Some (mkCfgFile "example.com" "home" "z1" (ID a)))
                        (creds "203.0.113.7")).
Proof.
  apply (normal_exit_means_saved (started fresh) (ready fresh) api 0
           unmanaged (creds "203.0.113.7")).
  - vm_compute. reflexivity.
  - vm_compute. reflexivity.
  - reflexivity.
  - vm_compute. reflexivity.
Defined.


Lemma program_writes_under_data_path_witness :
  exists text r,
    EvWriteFile "./config.json"
                (on_disk (mkCfgFile "example.com" "home" "z1" "rec0")) 384 None
    = EvWriteFile (if String.eqb (setDevMode (boot fresh)) "false"
                   then "/etc/gddns/config.json" else "./config.json")
                  text 384 r.
Proof.
  apply (program_writes_under_data_path (boot fresh)).
  vm_compute. left. reflexivity.
Defined.

Lemma create_requests_witness :
  ZoneIdentifier "z1" = ZoneIdentifier (ZoneID unmanaged)
  /\ cName (srv_record unmanaged "t2") = CNAME unmanaged
  /\ cProxied (srv_record unmanaged "t2") = Some false
  /\ ((cType (srv_record unmanaged "t2") = "A"
       /\ cContent (srv_record unmanaged "t2") = SysIP (creds "203.0.113.7")
       /\ cTTL (srv_record unmanaged "t2") = 300%Z
       /\ cData (srv_record unmanaged "t2") = None)
      \/ (cType (srv_record unmanaged "t2") = "SRV"
          /\ cContent (srv_record unmanaged "t2") = ""
          /\ cTTL (srv_record unmanaged "t2") = 900%Z
          /\ exists d,
               cData (srv_record unmanaged "t2") = Some d
               /\ d !! "service" = Some (VStr "_minecraft")
               /\ d !! "proto" = Some (VStr "_tcp")
               /\ d !! "name" = Some (VStr (CNAME unmanaged +:+ "." +:+ Domain unmanaged))
               /\ d !! "target" = Some (VStr (CNAME unmanaged +:+ "." +:+ Domain unmanaged))
               /\ d !! "priority" = Some (VInt 0)
               /\ d !! "weight" = Some (VInt 5)
               /\ d !! "port" = Some (VInt 25565)
               /\ size d = 7)).
Proof.
  apply (create_requests (started fresh) (ready fresh) api 0 unmanaged
           (creds "203.0.113.7") (ZoneIdentifier "z1") (srv_record unmanaged "t2")
           (Ok (mkRecord "rec1" "SRV" "home" ""))).
  - vm_compute. reflexivity.
  - vm_compute. reflexivity.
  - reflexivity.
  - vm_compute. right. right. right. right. left. reflexivity.
Defined.

Lemma update_request_is_repeatable_witness :
  exists rc p r r',
    events_since (ready settled) (updateRecord api 0 (ready settled)).2 = [EvUpdate rc p r]
    /\ events_since (main (started settled)).2
                    (updateRecord api 0 (main (started settled)).2).2
       = [EvUpdate rc p r']
    /\ heap (updateRecord api 0 (ready settled)).2 = heap (ready settled).
Proof.
  apply (update_request_is_repeatable (ready settled) (main (started settled)).2 api 0 0
           (mkConfig (Some managed) (creds "198.51.100.2"))).
  - vm_compute. reflexivity.
  - vm_compute. reflexivity.
  - discriminate.
Defined.
End More_witness.
